(** * miniflux, internal/reader/icon/finder.go

    A shallow embedding of the favicon finder: the data-URL decoder
    ([parseImageDataURL]), the HTML icon scanner
    ([findIconURLFromHTMLDocument]), the URL resolver ([generateIconURL]), the
    icon fetcher ([downloadIcon]) and the orchestrator ([FindIcon]).

    Conventions.
    - A Go [string] is a [string] of 8-bit [ascii] characters (Go strings are
      byte sequences); a [[]byte] is a [list ascii].
    - A Go [int] is a [Z].
    - A Go [(T, error)] result is a [result T].
    - An error built by [fmt.Errorf] is kept as its format string together with
      its arguments.
    - The network is a deterministic function of the requests issued so far;
      code that talks to it lives in the monad [M]. *)

From Stdlib Require Import ZArith List Bool Ascii String Lia.
Import ListNotations.
Open Scope string_scope.
Open Scope Z_scope.

(** ** Go runtime: bytes, strings and errors *)

Definition byte := ascii.

(** [[]byte(s)] and [string(b)]. *)
Definition bytes_of_string (s : string) : list byte := list_ascii_of_string s.
Definition string_of_bytes (b : list byte) : string := string_of_list_ascii b.

(** [uint(c)] for a byte [c], and the truncating conversion [byte(v)]. *)
Definition byte_to_Z (c : byte) : Z := Z.of_N (N_of_ascii c).
Definition byte_of_Z (v : Z) : byte := ascii_of_N (Z.to_N (v mod 256)).

(** [len(s)]. *)
Definition len (s : string) : Z := Z.of_nat (String.length s).

(** [s[lo:hi]]; every slice expression of finder.go is within bounds, so the
    run-time panic of an out-of-range slice is not represented. *)
Definition slice (s : string) (lo hi : Z) : string :=
  substring (Z.to_nat lo) (Z.to_nat (hi - lo)) s.

(** [s[lo:]]. *)
Definition slice_from (s : string) (lo : Z) : string := slice s lo (len s).

(** [strings.HasPrefix(s, prefix)]. *)
Definition HasPrefix (s pre : string) : bool := String.prefix pre s.

(** [strings.Index(s, substr)]: the index of the first instance of [substr]
    in [s], or [-1]. *)
Fixpoint Index (s substr : string) : Z :=
  if String.prefix substr s then 0
  else match s with
       | EmptyString => -1
       | String _ s' =>
           let i := Index s' substr in
           if i <? 0 then -1 else i + 1
       end.

(** Errors.  [Errorf format args] is the value of [fmt.Errorf(format, args...)];
    [ExternalError] is an error produced by a collaborator (HTTP transport,
    reader, HTML parser, URL library); [CorruptInputError] is the error of
    encoding/base64, carrying the offset of the offending byte; [EscapeError]
    is the error of net/url, carrying the offending escape. *)
Inductive error : Type :=
| Errorf (format : string) (args : list fmt_arg)
| ExternalError (msg : string)
| CorruptInputError (offset : Z)
| EscapeError (s : string)
with fmt_arg : Type :=
| ArgString (s : string)
| ArgInt (n : Z)
| ArgError (e : error).

Inductive result (A : Type) : Type :=
| Ok (a : A)
| Err (e : error).
Arguments Ok {A} a.
Arguments Err {A} e.

Definition is_Err {A} (r : result A) : Prop :=
  match r with Ok _ => False | Err _ => True end.

(** ** encoding/base64: [StdEncoding]

    The standard alphabet with ['='] padding.  [strict] is the field set by
    [Encoding.Strict()]; [StdEncoding] has it false. *)

Definition encodeStd : string :=
  "ABCDEFGHIJKLMNOPQRSTUVWXYZabcdefghijklmnopqrstuvwxyz0123456789+/".

Definition padChar : byte := "="%char.

(** [enc.encode[i]]. *)
Definition encode_at (i : Z) : byte :=
  match String.get (Z.to_nat i) encodeStd with
  | Some c => c
  | None => "000"%char
  end.

Fixpoint find_byte (c : byte) (s : string) (i : Z) : Z :=
  match s with
  | EmptyString => 255
  | String d s' => if Ascii.eqb c d then i else find_byte c s' (i + 1)
  end.

(** [enc.decodeMap[c]]: the position of [c] in the alphabet, [0xff] when [c]
    is not in it. *)
Definition decodeMap (c : byte) : Z := find_byte c encodeStd 0.

Definition is_newline (c : byte) : bool :=
  Ascii.eqb c "010"%char || Ascii.eqb c "013"%char.

(** The loops [for si < len(src) && (src[si] == '\n' || src[si] == '\r')]
    of [decodeQuantum]; returns the rest of the input and the bytes skipped. *)
Fixpoint skip_newlines (src : string) : string :=
  match src with
  | String c rest => if is_newline c then skip_newlines rest else src
  | EmptyString => EmptyString
  end.

Fixpoint count_newlines (src : string) : Z :=
  match src with
  | String c rest => if is_newline c then 1 + count_newlines rest else 0
  | EmptyString => 0
  end.

(** Whether [s] contains a carriage return or a line feed. *)
Fixpoint has_newline (s : string) : bool :=
  match s with
  | String c rest => is_newline c || has_newline rest
  | EmptyString => false
  end.

(** [val := uint(dbuf[0])<<18 | uint(dbuf[1])<<12 | uint(dbuf[2])<<6 | uint(dbuf[3])];
    the entries of [dbuf] not yet filled are zero. *)
Definition quantum_val (dbuf : list Z) : Z :=
  Z.lor (Z.lor (Z.lor (Z.shiftl (nth 0 dbuf 0) 18) (Z.shiftl (nth 1 dbuf 0) 12))
               (Z.shiftl (nth 2 dbuf 0) 6))
        (nth 3 dbuf 0).

Definition byte_is_zero (c : byte) : bool := Ascii.eqb c zero.

(** The tail of [decodeQuantum]: "Convert 4x 6bit source bytes into 3 bytes".
    [dlen] is the number of sextets read, [si] the input position reached and
    [err] the pending "trailing garbage" error.  The result is the slice of
    [dlen - 1] bytes written to [dst], or the error [Decode] returns. *)
Definition convert_quantum (strict : bool) (dbuf : list Z) (dlen : nat) (si : Z)
    (err : option error) : result (list byte) :=
  let val := quantum_val dbuf in
  let b2 := byte_of_Z (Z.shiftr val 0) in
  let b1 := byte_of_Z (Z.shiftr val 8) in
  let b0 := byte_of_Z (Z.shiftr val 16) in
  let done (bs : list byte) :=
    match err with None => Ok bs | Some e => Err e end in
  match dlen with
  | 4%nat => done [b0; b1; b2]
  | 3%nat =>
      if strict && negb (byte_is_zero b2) then Err (CorruptInputError (si - 1))
      else done [b0; b1]
  | 2%nat =>
      if strict && (negb (byte_is_zero b1) || negb (byte_is_zero b2))
      then Err (CorruptInputError (si - 2))
      else done [b0]
  | _ => done []
  end.

(** [decodeQuantum] after the newlines that follow the padding have been
    skipped: anything left is trailing garbage. *)
Definition after_padding (strict : bool) (rest : string) (si : Z) (dbuf : list Z)
    : result (list byte) :=
  let si := si + count_newlines rest in
  let rest := skip_newlines rest in
  let err := match rest with
             | EmptyString => None
             | String _ _ => Some (CorruptInputError si)
             end in
  convert_quantum strict dbuf (List.length dbuf) si err.

(** [decodeQuantum] once a padding character has been read ([switch j]);
    [si] is the position after that character. *)
Definition decode_padding (strict : bool) (rest : string) (si : Z) (dbuf : list Z)
    : result (list byte) :=
  match List.length dbuf with
  | 0%nat | 1%nat => Err (CorruptInputError (si - 1))
  | 2%nat =>
      let si := si + count_newlines rest in
      match skip_newlines rest with
      | EmptyString => Err (CorruptInputError si)
      | String c rest =>
          if negb (Ascii.eqb c padChar) then Err (CorruptInputError (si - 1))
          else after_padding strict rest (si + 1) dbuf
      end
  | _ => after_padding strict rest si dbuf
  end.

(** [Encoding.Decode]: the loop [for si < len(src)] around [decodeQuantum],
    with the loop [for j := 0; j < len(dbuf); j++] of [decodeQuantum] merged
    into it.  [src] is what is left of the input from position [si] on and
    [dbuf] holds the [j = length dbuf] sextets of the quantum being read.
    The 8- and 4-byte fast paths of [Decode] compute the same result and fall
    back to [decodeQuantum] on any byte outside the alphabet; they are not
    modelled apart. *)
Fixpoint decode_from (strict : bool) (src : string) (si : Z) (dbuf : list Z)
    {struct src} : result (list byte) :=
  match src with
  | EmptyString =>
      match dbuf with
      | [] => Ok []
      | _ :: _ => Err (CorruptInputError (si - Z.of_nat (List.length dbuf)))
      end
  | String c rest =>
      let si := si + 1 in
      let out := decodeMap c in
      if negb (out =? 255) then
        let dbuf := (dbuf ++ [out])%list in
        if (List.length dbuf =? 4)%nat then
          match convert_quantum strict dbuf 4 si None with
          | Ok q =>
              match decode_from strict rest si [] with
              | Ok bs => Ok (q ++ bs)%list
              | Err e => Err e
              end
          | Err e => Err e
          end
        else decode_from strict rest si dbuf
      else if is_newline c then decode_from strict rest si dbuf
      else if negb (Ascii.eqb c padChar) then Err (CorruptInputError (si - 1))
      else decode_padding strict rest si dbuf
  end.

(** [base64.StdEncoding.DecodeString(s)] (with [strict = false]) and
    [base64.StdEncoding.Strict().DecodeString(s)] (with [strict = true]). *)
Definition DecodeString (strict : bool) (s : string) : result (list byte) :=
  decode_from strict s 0 [].

(** [enc.encode[val>>k&0x3F]]. *)
Definition encode_sextet (val k : Z) : byte :=
  encode_at (Z.land (Z.shiftr val k) 63).

(** [base64.StdEncoding.EncodeToString(src)]: [Encoding.Encode], three bytes
    at a time, then "the remaining small block" with its padding. *)
Fixpoint EncodeToString (src : list byte) : string :=
  match src with
  | [] => EmptyString
  | [s0] =>
      let val := Z.shiftl (byte_to_Z s0) 16 in
      String (encode_sextet val 18) (String (encode_sextet val 12)
        (String padChar (String padChar EmptyString)))
  | [s0; s1] =>
      let val := Z.lor (Z.shiftl (byte_to_Z s0) 16) (Z.shiftl (byte_to_Z s1) 8) in
      String (encode_sextet val 18) (String (encode_sextet val 12)
        (String (encode_sextet val 6) (String padChar EmptyString)))
  | s0 :: s1 :: s2 :: rest =>
      let val := Z.lor (Z.lor (Z.shiftl (byte_to_Z s0) 16) (Z.shiftl (byte_to_Z s1) 8))
                       (byte_to_Z s2) in
      String (encode_sextet val 18) (String (encode_sextet val 12)
        (String (encode_sextet val 6) (String (encode_sextet val 0)
          (EncodeToString rest))))
  end.

(** ** net/url: [QueryUnescape] *)

Definition byte_between (lo c hi : byte) : bool :=
  (byte_to_Z lo <=? byte_to_Z c) && (byte_to_Z c <=? byte_to_Z hi).

Definition ishex (c : byte) : bool :=
  byte_between "0"%char c "9"%char || byte_between "a"%char c "f"%char || byte_between "A"%char c "F"%char.

Definition unhex (c : byte) : Z :=
  if byte_between "0"%char c "9"%char then byte_to_Z c - byte_to_Z "0"%char
  else if byte_between "a"%char c "f"%char then byte_to_Z c - byte_to_Z "a"%char + 10
  else if byte_between "A"%char c "F"%char then byte_to_Z c - byte_to_Z "A"%char + 10
  else 0.

(** [url.QueryUnescape(s)], that is [unescape(s, encodeQueryComponent)]: each
    [%XX] becomes the byte [unhex(X)<<4 | unhex(X)], each ['+'] a space.  A
    ['%'] not followed by two hexadecimal digits is an [EscapeError] holding
    at most three bytes from the ['%'] on.  The validating pass and the
    rewriting pass of [unescape] are done in one traversal. *)
Fixpoint QueryUnescape (s : string) : result string :=
  match s with
  | EmptyString => Ok EmptyString
  | String c rest =>
      if Ascii.eqb c "%" then
        match rest with
        | String h1 (String h2 rest') =>
            if ishex h1 && ishex h2 then
              match QueryUnescape rest' with
              | Ok t => Ok (String (byte_of_Z (Z.lor (Z.shiftl (unhex h1) 4) (unhex h2))) t)
              | Err e => Err e
              end
            else Err (EscapeError (substring 0 3 s))
        | _ => Err (EscapeError (substring 0 3 s))
        end
      else
        match QueryUnescape rest with
        | Ok t => Ok (String (if Ascii.eqb c "+" then " "%char else c) t)
        | Err e => Err e
        end
  end.

(** ** golang.org/x/net/html nodes, and the part of goquery the finder uses *)

Inductive NodeType : Type :=
| ErrorNode | TextNode | DocumentNode | ElementNode | CommentNode | DoctypeNode.

Record Attribute : Type := mkAttribute { Key : string; Val : string }.

(** [html.Node]: its type, its [Data] (the tag name of an element), its
    attributes and its children in document order. *)
#[warnings="-register-all"]
Inductive Node : Type :=
| mkNode (Type_ : NodeType) (Data : string) (Attr : list Attribute)
         (Children : list Node).

Definition node_type (n : Node) : NodeType := let (t, _, _, _) := n in t.
Definition node_data (n : Node) : string := let (_, d, _, _) := n in d.
Definition node_attr (n : Node) : list Attribute := let (_, _, a, _) := n in a.
Definition node_children (n : Node) : list Node := let (_, _, _, c) := n in c.

Definition is_element (n : Node) : bool :=
  match node_type n with ElementNode => true | _ => false end.

(** A node followed by its descendants, in document order: the traversal of
    cascadia's [matchAllInto]. *)
Fixpoint preorder (n : Node) : list Node :=
  match n with
  | mkNode _ _ _ children =>
      n :: (fix go (l : list Node) : list Node :=
              match l with
              | [] => []
              | c :: l' => (preorder c ++ go l')%list
              end) children
  end.

Definition descendants (root : Node) : list Node :=
  flat_map preorder (node_children root).

(** The selectors of the finder all have the form [tag[key='val']]: an element
    named [tag] one of whose attributes [key] has exactly the value [val]
    (cascadia's tag selector and [attributeEqualsSelector], both
    case-sensitive on parsed nodes). *)
Record Selector : Type :=
  mkSelector { sel_tag : string; sel_key : string; sel_val : string }.

Definition matches (q : Selector) (n : Node) : bool :=
  is_element n
  && String.eqb (node_data n) (sel_tag q)
  && existsb (fun a => String.eqb (Key a) (sel_key q) && String.eqb (Val a) (sel_val q))
             (node_attr n).

(** [doc.Find(query)]: the descendants of the document root matched by the
    selector, in document order. *)
Definition Find (doc : Node) (q : Selector) : list Node :=
  filter (matches q) (descendants doc).

(** [s.Attr(attrName)] on a one-node selection: the value of the first
    attribute of that name, if there is one. *)
Definition Attr (n : Node) (attrName : string) : option string :=
  match find (fun a => String.eqb (Key a) attrName) (node_attr n) with
  | Some a => Some (Val a)
  | None => None
  end.

(** ** The model package and the collaborators of the finder *)

(** Modelled from the spec: [model.Icon] is declared outside this file; the
    fields are those of section 3 of the specification, which are also the
    fields the two struct literals of finder.go set. *)
Record Icon : Type := mkIcon {
  Hash : string;
  MimeType : string;
  Content : list byte
}.

(** An [io.Reader] as [io.ReadAll] and the HTML parser see it: the bytes it
    delivers, and the error (if any) that ends the stream instead of EOF. *)
Record Reader : Type := mkReader {
  reader_bytes : list byte;
  reader_err : option error
}.

(** [io.ReadAll(r)]. *)
Definition ReadAll (r : Reader) : list byte * option error :=
  (reader_bytes r, reader_err r).

(** The request an HTTP client is configured for by
    [client.NewClientWithConfig(url, config.Opts)], [WithUserAgent],
    [AllowSelfSignedCertificates] and [WithProxy]. *)
Record Client : Type := mkClient {
  inputURL : string;
  requestUserAgent : string;
  AllowSelfSignedCertificates : bool;
  useProxy : bool
}.

(** [client.Response], restricted to what the finder reads. *)
Record Response : Type := mkResponse {
  StatusCode : Z;
  ContentType : string;
  Body : Reader
}.

(** Code that issues HTTP requests: a state monad over the list of requests
    sent so far (oldest first). *)
Definition M (A : Type) : Type := list Client -> A * list Client.

Definition ret {A} (a : A) : M A := fun h => (a, h).

Definition bind {A B} (m : M A) (k : A -> M B) : M B :=
  fun h => let (a, h') := m h in k a h'.

Notation "'let!' x ':=' m 'in' k" := (bind m (fun x => k))
  (at level 10, x name, k at level 200).

(** The selectors tried by the scanner, in order:
    [link[rel='shortcut icon']], [link[rel='Shortcut Icon']],
    [link[rel='icon shortcut']], [link[rel='icon']]. *)
Definition queries : list Selector :=
  [ mkSelector "link" "rel" "shortcut icon";
    mkSelector "link" "rel" "Shortcut Icon";
    mkSelector "link" "rel" "icon shortcut";
    mkSelector "link" "rel" "icon" ].

(** The elements of a document that at least one of the selectors matches,
    in document order. *)
Definition icon_links (doc : Node) : list Node :=
  filter (fun n => existsb (fun q => matches q n) queries) (descendants doc).

(** Lines 171-179 of [parseImageDataURL]: the media type, the encoding token
    and the data of a data URL whose [data:] prefix has been removed and
    whose first comma is at index [comma]. *)
Definition dataURLParts (value : string) (comma : Z) : string * string * string :=
  let data := slice_from value (comma + 1) in
  let semicolon := Index (slice value 0 comma) ";" in
  if semicolon >? 0 then
    (slice value 0 semicolon, slice value (semicolon + 1) comma, data)
  else
    (slice value 0 comma, EmptyString, data).

(** The errors section 7 of the specification calls malformed-data-URL
    errors: missing comma, bad media type, unsupported encoding, invalid
    base64 or percent-escaping (and the missing [data:] prefix). *)
Definition malformed_data_URL_formats : list string :=
  [ "icon: invalid data URL (missing data:) %q";
    "icon: invalid data URL (no comma) %q";
    "icon: invalid media type %q";
    "icon: invalid data %q (%v)";
    "icon: unable to decode data URL %q";
    "icon: unsupported data URL encoding %q" ].

Definition malformed_data_URL (e : error) : bool :=
  match e with
  | Errorf format _ => existsb (String.eqb format) malformed_data_URL_formats
  | _ => false
  end.

(** A base64 text is canonical when it has no line break and the bits of its
    last symbol that encode no data are zero, which is what
    [StdEncoding.Strict()] checks on top of [StdEncoding]. *)
Definition canonical_base64 (s : string) : bool :=
  negb (has_newline s)
  && match DecodeString true s with Ok _ => true | Err _ => false end.

(** [s] without its carriage returns and line feeds. *)
Fixpoint strip_newlines (s : string) : string :=
  match s with
  | String c rest =>
      if is_newline c then strip_newlines rest else String c (strip_newlines rest)
  | EmptyString => EmptyString
  end.

(** [s] with each ['+'] replaced by a space. *)
Fixpoint plus_to_space (s : string) : string :=
  match s with
  | String c rest => String (if Ascii.eqb c "+" then " "%char else c) (plus_to_space rest)
  | EmptyString => EmptyString
  end.

(** What a call returned when it did not fail. *)
Definition result_value {A} (r : result A) : option A :=
  match r with Ok a => Some a | Err _ => None end.


(** ** Sample collaborators

    Concrete stand-ins for the parameters of the finder, used to run the model
    on the examples that follow the theorems. *)

(** The ASCII fragment of [strings.TrimSpace]: the bytes of its [asciiSpace]
    table (tab, newline, vertical tab, form feed, carriage return, space) are
    removed from both ends. *)
Definition ascii_space (c : byte) : bool :=
  existsb (Ascii.eqb c) ["009"; "010"; "011"; "012"; "013"; " "]%char.

Fixpoint trim_left (s : string) : string :=
  match s with
  | String c rest => if ascii_space c then trim_left rest else s
  | EmptyString => EmptyString
  end.

Fixpoint trim_right (s : string) : string :=
  match s with
  | String c rest =>
      let rest' := trim_right rest in
      if String.eqb rest' "" && ascii_space c then EmptyString else String c rest'
  | EmptyString => EmptyString
  end.

Definition sample_TrimSpace (s : string) : string := trim_right (trim_left s).

Definition sample_hash (b : list byte) : string := string_of_bytes b.

Definition sample_RootURL (websiteURL : string) : string := websiteURL.

Definition sample_Join (baseURL path : string) : result string :=
  Ok (baseURL ++ "/" ++ path).

Definition sample_Absolute (baseURL input : string) : result string :=
  Ok (baseURL ++ input).

(** Modelled from the spec: [Response.HasServerFailure] is declared outside
    this file; section 4.4 of the specification calls it "a server-side
    failure status (5xx-class)". *)
Definition HasServerFailure_spec (r : Response) : bool :=
  (500 <=? StatusCode r) && (StatusCode r <=? 599).

Definition sample_response (status : Z) (contentType body : string) : Response :=
  {| StatusCode := status;
     ContentType := contentType;
     Body := {| reader_bytes := bytes_of_string body; reader_err := None |} |}.

(** A small web: an index page, an icon that downloads, an icon whose server
    is failing, an icon with an empty body; anything else does not resolve. *)
Definition sample_network (h : list Client) (clt : Client) : result Response :=
  if String.eqb (inputURL clt) "https://example.org" then
    Ok (sample_response 200 "text/html" "<html>")
  else if String.eqb (inputURL clt) "https://example.org/b.png" then
    Ok (sample_response 200 "image/png" "PNG")
  else if String.eqb (inputURL clt) "https://example.org/favicon.ico" then
    Ok (sample_response 503 "text/plain" "unavailable")
  else if String.eqb (inputURL clt) "https://example.org/empty.png" then
    Ok (sample_response 200 "image/png" "")
  else Err (ExternalError "no such host").

Definition element (tag : string) (attrs : list Attribute) (children : list Node)
    : Node :=
  mkNode ElementNode tag attrs children.

Definition link (rel href : string) : Node :=
  element "link" [mkAttribute "rel" rel; mkAttribute "href" href] [].

(** [<link rel="icon" href="/a.png">] and
    [<link rel="shortcut icon" href="/b.png">]. *)
Definition link_a : Node := link "icon" "/a.png".
Definition link_b : Node := link "shortcut icon" "/b.png".

Definition page (head : list Node) : Node :=
  mkNode DocumentNode "" []
    [element "html" [] [element "head" [] head; element "body" [] []]].

Definition title : Node :=
  element "title" [] [mkNode TextNode "Example" [] []].

(** Two pages with both links, in the two orders. *)
Definition page_ab : Node :=
  page [title; link_a; link "stylesheet" "/s.css"; link_b].
Definition page_ba : Node :=
  page [title; link_b; link "stylesheet" "/s.css"; link_a].

(** A page whose last [shortcut icon] link with an [href] has a blank one. *)
Definition page_blank : Node :=
  page [ link "shortcut icon" "/x.png";
         link "shortcut icon" "  ";
         element "link" [mkAttribute "rel" "shortcut icon"] [];
         link_a ].

(** A page whose icon is a data URL, and a page without icon link. *)
Definition page_data : Node :=
  page [title; link "icon" "data:image/png;base64,QUI="].
Definition page_plain : Node :=
  page [title; link "stylesheet" "/s.css"].

(** A parser that returns the given document for every input. *)
Definition sample_parse (doc : Node) : Reader -> result Node := fun _ => Ok doc.

Definition sample_body : Reader :=
  {| reader_bytes := bytes_of_string "<html>"; reader_err := None |}.

(** The icon with payload [AB] that the data URLs of the examples decode to,
    and the icon served at [https://example.org/b.png]. *)
Definition icon_AB : Icon :=
  {| Hash := sample_hash (bytes_of_string "AB");
     MimeType := "image/png";
     Content := bytes_of_string "AB" |}.

Definition icon_PNG : Icon :=
  {| Hash := sample_hash (bytes_of_string "PNG");
     MimeType := "image/png";
     Content := bytes_of_string "PNG" |}.

(** A parser and a URL resolver that fail, a parser that tells two inputs
    apart, and two more pages: one with both links at the top of the
    document, one with three [rel="icon"] links. *)
Definition failing_parse : Reader -> result Node :=
  fun _ => Err (ExternalError "unexpected EOF").

Definition failing_Absolute (baseURL input : string) : result string :=
  Err (ExternalError "invalid URL").

Definition page_flat : Node := mkNode DocumentNode "" [] [link_a; link_b].

Definition empty_body : Reader := {| reader_bytes := []; reader_err := None |}.

Definition parse_two (r : Reader) : result Node :=
  match reader_bytes r with
  | [] => Ok page_flat
  | _ :: _ => Ok page_ab
  end.

Definition page_icons : Node :=
  page [title; link "icon" "/1.png"; link "icon" "/2.png"; link "icon" " /3.png "].


Section Finder.

Set Default Proof Using "Type".
Set Proof Using Clear Unused.

(** [crypto.HashFromBytes]. *)
Variable HashFromBytes : list byte -> string.

(** [strings.TrimSpace]. *)
Variable TrimSpace : string -> string.

(** [urllib.RootURL], [urllib.JoinBaseURLAndPath], [urllib.AbsoluteURL]. *)
Variable RootURL : string -> string.
Variable JoinBaseURLAndPath : string -> string -> result string.
Variable AbsoluteURL : string -> string -> result string.

(** [Response.HasServerFailure]. *)
Variable HasServerFailure : Response -> bool.

(** The outcome of [clt.Get()], given the requests sent before it. *)
Variable network : list Client -> Client -> result Response.

(** [html.Parse], as called by [goquery.NewDocumentFromReader]; the result
    is the document root. *)
Variable html_Parse : Reader -> result Node.

(** [clt.Get()]. *)
Definition Get (clt : Client) : M (result Response) :=
  fun h => (network h clt, (h ++ [clt])%list).

Definition NewDocumentFromReader (body : Reader) : result Node :=
  html_Parse body.

(** The switch on [encoding] of [parseImageDataURL]: the decoded [blob], or
    the error the function returns. *)
Definition decodeData (value encoding data : string) : result (list byte) :=
  if String.eqb encoding "base64" then
    match DecodeString false data with
    | Ok blob => Ok blob
    | Err err =>
        Err (Errorf "icon: invalid data %q (%v)" [ArgString value; ArgError err])
    end
  else if String.eqb encoding "" then
    match QueryUnescape data with
    | Ok decodedData => Ok (bytes_of_string decodedData)
    | Err _ => Err (Errorf "icon: unable to decode data URL %q" [ArgString value])
    end
  else Err (Errorf "icon: unsupported data URL encoding %q" [ArgString value]).

Definition parseImageDataURL (value : string) : result Icon :=
  if negb (HasPrefix value "data:") then
    Err (Errorf "icon: invalid data URL (missing data:) %q" [ArgString value])
  else
    let value := slice_from value 5 in
    let comma := Index value "," in
    if comma <? 0 then
      Err (Errorf "icon: invalid data URL (no comma) %q" [ArgString value])
    else
      let '(mediaType, encoding, data) := dataURLParts value comma in
      if negb (HasPrefix mediaType "image/") then
        Err (Errorf "icon: invalid media type %q" [ArgString mediaType])
      else
        match decodeData value encoding data with
        | Err e => Err e
        | Ok blob =>
            if Z.of_nat (List.length blob) =? 0 then
              Err (Errorf "icon: empty data URL %q" [ArgString value])
            else
              Ok {| Hash := HashFromBytes blob;
                    Content := blob;
                    MimeType := mediaType |}
        end.

Definition generateIconURL (websiteURL feedIconURL : string) : result string :=
  let feedIconURL := TrimSpace feedIconURL in
  if String.eqb feedIconURL "" then
    match JoinBaseURLAndPath (RootURL websiteURL) "favicon.ico" with
    | Err err =>
        Err (Errorf "icon: unable to join base URL and path: %w" [ArgError err])
    | Ok iconURL => Ok iconURL
    end
  else
    match AbsoluteURL websiteURL feedIconURL with
    | Err err =>
        Err (Errorf "icon: unable to convert icon URL to absolute URL: %w"
                    [ArgError err])
    | Ok iconURL => Ok iconURL
    end.

(** The callback passed to [Each], applied to one match: [iconURL] is the
    variable the closure captures. *)
Definition each_href (iconURL : string) (s : Node) : string :=
  match Attr s "href" with
  | Some href => TrimSpace href
  | None => iconURL
  end.

(** [doc.Find(query).Each(...)]: the value of [iconURL] after the pass. *)
Definition Each_href (iconURL : string) (selection : list Node) : string :=
  fold_left each_href selection iconURL.

(** The loop [for _, query := range queries] with its [break]. *)
Fixpoint scan_queries (doc : Node) (qs : list Selector) (iconURL : string)
    : string :=
  match qs with
  | [] => iconURL
  | query :: qs' =>
      let iconURL := Each_href iconURL (Find doc query) in
      if negb (String.eqb iconURL "") then iconURL
      else scan_queries doc qs' iconURL
  end.

Definition findIconURLFromHTMLDocument (body : Reader) : result string :=
  match NewDocumentFromReader body with
  | Err err => Err (Errorf "icon: unable to read document: %v" [ArgError err])
  | Ok doc => Ok (scan_queries doc queries "")
  end.

(** The scanner in the words of the specification.  The [href] values of
    the matches that carry one, in document order; what one selector yields
    (the trimmed [href] of the last of them, or nothing); and the first
    selector, in priority order, that yields something. *)
Definition hrefs (selection : list Node) : list string :=
  flat_map (fun s => match Attr s "href" with
                     | Some href => [href]
                     | None => []
                     end) selection.

Definition selector_yield (doc : Node) (q : Selector) : string :=
  last (map TrimSpace (hrefs (Find doc q))) "".

Fixpoint first_non_empty (l : list string) : string :=
  match l with
  | [] => ""
  | x :: l' => if String.eqb x "" then first_non_empty l' else x
  end.

Definition scanner_spec (doc : Node) : string :=
  first_non_empty
    (map (selector_yield doc)
         [ mkSelector "link" "rel" "shortcut icon";
           mkSelector "link" "rel" "Shortcut Icon";
           mkSelector "link" "rel" "icon shortcut";
           mkSelector "link" "rel" "icon" ]).

Definition newClient (url userAgent : string)
    (fetchViaProxy allowSelfSignedCertificates : bool) : Client :=
  {| inputURL := url;
     requestUserAgent := userAgent;
     AllowSelfSignedCertificates := allowSelfSignedCertificates;
     useProxy := fetchViaProxy |}.

Definition fetchHTMLDocumentAndFindIconURL (websiteURL userAgent : string)
    (fetchViaProxy allowSelfSignedCertificates : bool) : M (result string) :=
  let rootURL := RootURL websiteURL in
  let clt := newClient rootURL userAgent fetchViaProxy allowSelfSignedCertificates in
  let! r := Get clt in
  match r with
  | Err err =>
      ret (Err (Errorf "icon: unable to download website index page: %v"
                       [ArgError err]))
  | Ok response =>
      if HasServerFailure response then
        ret (Err (Errorf "icon: unable to download website index page: status=%d"
                         [ArgInt (StatusCode response)]))
      else ret (findIconURLFromHTMLDocument (Body response))
  end.

Definition downloadIcon (iconURL userAgent : string)
    (fetchViaProxy allowSelfSignedCertificates : bool) : M (result Icon) :=
  let clt := newClient iconURL userAgent fetchViaProxy allowSelfSignedCertificates in
  let! r := Get clt in
  match r with
  | Err err =>
      ret (Err (Errorf "icon: unable to download iconURL: %v" [ArgError err]))
  | Ok response =>
      if HasServerFailure response then
        ret (Err (Errorf "icon: unable to download icon: status=%d"
                         [ArgInt (StatusCode response)]))
      else
        match ReadAll (Body response) with
        | (_, Some err) =>
            ret (Err (Errorf "icon: unable to read downloaded icon: %v"
                             [ArgError err]))
        | (body, None) =>
            if Z.of_nat (List.length body) =? 0 then
              ret (Err (Errorf "icon: downloaded icon is empty, iconURL=%s"
                               [ArgString iconURL]))
            else
              ret (Ok {| Hash := HashFromBytes body;
                         MimeType := ContentType response;
                         Content := body |})
        end
  end.

Definition FindIcon (websiteURL feedIconURL userAgent : string)
    (fetchViaProxy allowSelfSignedCertificates : bool) : M (result Icon) :=
  let! r := (if String.eqb feedIconURL "" then
               fetchHTMLDocumentAndFindIconURL websiteURL userAgent fetchViaProxy
                                               allowSelfSignedCertificates
             else ret (Ok feedIconURL)) in
  match r with
  | Err err => ret (Err err)
  | Ok feedIconURL =>
      if HasPrefix feedIconURL "data:" then ret (parseImageDataURL feedIconURL)
      else
        match generateIconURL websiteURL feedIconURL with
        | Err err => ret (Err err)
        | Ok feedIconURL =>
            let! r := downloadIcon feedIconURL userAgent fetchViaProxy
                                   allowSelfSignedCertificates in
            match r with
            | Err err => ret (Err err)
            | Ok icon => ret (Ok icon)
            end
        end
  end.

(** ** Properties of the string primitives *)

Lemma len_nonneg (s : string) : 0 <= len s.
Proof. unfold len; lia. Qed.

Lemma len_append (a b : string) : len (a ++ b) = len a + len b.
Proof.
  unfold len; induction a as [|c a IH]; simpl String.length; [lia|].
  rewrite !Nat2Z.inj_succ. lia.
Qed.

Lemma substring_all (s : string) : substring 0 (String.length s) s = s.
Proof. induction s as [|c s IH]; simpl; [reflexivity | now rewrite IH]. Qed.

Lemma substring_append_skip (a b : string) (m : nat) :
  substring (String.length a) m (a ++ b) = substring 0 m b.
Proof. induction a as [|c a IH]; simpl; [reflexivity | exact IH]. Qed.

Lemma substring_append_take (a b : string) :
  substring 0 (String.length a) (a ++ b) = a.
Proof.
  induction a as [|c a IH]; simpl.
  - destruct b; reflexivity.
  - now rewrite IH.
Qed.

Lemma slice_prefix (a b : string) : slice (a ++ b) 0 (len a) = a.
Proof.
  unfold slice, len. rewrite Z.sub_0_r, Nat2Z.id. simpl Z.to_nat.
  apply substring_append_take.
Qed.

Lemma slice_from_append (a b : string) : slice_from (a ++ b) (len a) = b.
Proof.
  unfold slice_from, slice. rewrite len_append. unfold len. rewrite Nat2Z.id.
  replace (Z.to_nat (_ + _ - _)) with (String.length b) by lia.
  rewrite substring_append_skip. apply substring_all.
Qed.

Lemma prefix_append (p s : string) : String.prefix p (p ++ s) = true.
Proof.
  induction p as [|c p IH]; simpl; [destruct s; reflexivity|].
  destruct (ascii_dec c c); [exact IH | congruence].
Qed.

Lemma Index_unfold (c : byte) (s sep : string) :
  Index (String c s) sep =
  if String.prefix sep (String c s) then 0
  else if Index s sep <? 0 then -1 else Index s sep + 1.
Proof. reflexivity. Qed.

Lemma Index_bounds (s sep : string) : -1 <= Index s sep <= len s.
Proof.
  induction s as [|c s IH].
  - destruct sep; unfold len; simpl; lia.
  - rewrite Index_unfold. pose proof (len_nonneg s).
    assert (len (String c s) = len s + 1)
      by (unfold len; simpl String.length; lia).
    destruct (String.prefix sep (String c s)); [lia|].
    destruct (Index s sep <? 0) eqn:E; [lia|]. apply Z.ltb_ge in E. lia.
Qed.

(** [strings.Index] with a one-byte separator. *)
Lemma Index1_nil (c : byte) : Index "" (String c "") = -1.
Proof. reflexivity. Qed.

Lemma Index1_cons (c d : byte) (s : string) :
  Index (String d s) (String c "") =
  if Ascii.eqb c d then 0
  else if Index s (String c "") <? 0 then -1 else Index s (String c "") + 1.
Proof.
  rewrite Index_unfold. simpl String.prefix.
  destruct (ascii_dec c d) as [->|ne].
  - rewrite Ascii.eqb_refl. destruct s; reflexivity.
  - apply Ascii.eqb_neq in ne. rewrite ne. reflexivity.
Qed.

Lemma Index1_lt (s : string) (c : byte) : Index s (String c "") < len s.
Proof.
  induction s as [|d s IH].
  - rewrite Index1_nil. unfold len; simpl; lia.
  - rewrite Index1_cons.
    assert (len (String d s) = len s + 1)
      by (unfold len; simpl String.length; lia).
    pose proof (len_nonneg s).
    destruct (Ascii.eqb c d); [lia|].
    destruct (Index s (String c "") <? 0); lia.
Qed.

(** The index of a one-byte separator in [a ++ sep ++ b] when [a] does not
    contain it. *)
Lemma Index_first (a b : string) (c : byte) :
  Index a (String c "") < 0 -> Index (a ++ String c b) (String c "") = len a.
Proof.
  induction a as [|d a IH]; intros H.
  - simpl append. rewrite Index1_cons, Ascii.eqb_refl. reflexivity.
  - simpl append. rewrite Index1_cons in H. rewrite !Index1_cons.
    destruct (Ascii.eqb c d); [lia|].
    pose proof (Index_bounds a (String c "")).
    destruct (Index a (String c "") <? 0) eqn:E; [|apply Z.ltb_ge in E; lia].
    apply Z.ltb_lt in E. rewrite (IH E). pose proof (len_nonneg a).
    destruct (len a <? 0) eqn:E'; [apply Z.ltb_lt in E'; lia|].
    unfold len. simpl String.length. lia.
Qed.

Lemma Index_append_present (a b : string) (c : byte) :
  0 <= Index a (String c "") ->
  Index (a ++ b) (String c "") = Index a (String c "").
Proof.
  induction a as [|d a IH]; intros H.
  - rewrite Index1_nil in H. lia.
  - simpl append. rewrite Index1_cons in H. rewrite !Index1_cons.
    destruct (Ascii.eqb c d); [reflexivity|].
    destruct (Index a (String c "") <? 0) eqn:E; [lia|].
    rewrite (IH (proj1 (Z.ltb_ge _ _) E)), E. reflexivity.
Qed.

Lemma Index_absent_append (a b : string) (c : byte) :
  Index a (String c "") < 0 ->
  Index (a ++ b) (String c "") =
  if Index b (String c "") <? 0 then -1 else len a + Index b (String c "").
Proof.
  induction a as [|d a IH]; intros H.
  - simpl append. change (len "") with 0.
    destruct (Index b (String c "") <? 0) eqn:E; [apply Z.ltb_lt in E|].
    + pose proof (Index_bounds b (String c "")). lia.
    + lia.
  - simpl append. rewrite Index1_cons in H. rewrite !Index1_cons.
    destruct (Ascii.eqb c d); [lia|].
    pose proof (Index_bounds a (String c "")).
    destruct (Index a (String c "") <? 0) eqn:E; [|apply Z.ltb_ge in E; lia].
    apply Z.ltb_lt in E. rewrite (IH E).
    pose proof (len_nonneg a). pose proof (Index_bounds b (String c "")).
    assert (len (String d a) = len a + 1)
      by (unfold len; simpl String.length; lia).
    destruct (Index b (String c "") <? 0) eqn:E'; [reflexivity|].
    apply Z.ltb_ge in E'.
    destruct (len a + Index b (String c "") <? 0) eqn:E''; [apply Z.ltb_lt in E''; lia|].
    lia.
Qed.

Lemma substring_append_within (a b : string) (n m : nat) :
  (n + m <= String.length a)%nat -> substring n m (a ++ b) = substring n m a.
Proof.
  revert n m; induction a as [|c a IH]; intros n m H; simpl in H.
  - assert (n = 0%nat) by lia. assert (m = 0%nat) by lia. subst.
    simpl. destruct b; reflexivity.
  - destruct n as [|n]; simpl.
    + destruct m as [|m]; [reflexivity|]. f_equal. apply IH. lia.
    + apply IH. lia.
Qed.

Lemma slice_append_within (a b : string) (lo hi : Z) :
  0 <= lo <= hi -> hi <= len a -> slice (a ++ b) lo hi = slice a lo hi.
Proof.
  intros H1 H2. unfold slice. apply substring_append_within. unfold len in H2. lia.
Qed.

(** ** The header of a data URL *)

(** What lines 171-179 compute on [seg ++ "," ++ data] when [seg] has no
    comma. *)
Lemma dataURLParts_segment (seg data : string) :
  Index seg "," < 0 ->
  Index (seg ++ "," ++ data) "," = len seg /\
  dataURLParts (seg ++ "," ++ data) (len seg) =
    if Index seg ";" >? 0
    then (slice seg 0 (Index seg ";"), slice seg (Index seg ";" + 1) (len seg), data)
    else (seg, EmptyString, data).
Proof.
  intros H. split; [apply (Index_first seg data ","%char H)|].
  unfold dataURLParts. pose proof (len_nonneg seg) as Hl.
  assert (Hd : slice_from (seg ++ "," ++ data) (len seg + 1) = data).
  { change (seg ++ "," ++ data) with (seg ++ String ","%char data).
    replace (seg ++ String ","%char data) with ((seg ++ ",") ++ data).
    - replace (len seg + 1) with (len (seg ++ ",")) by (rewrite len_append; reflexivity).
      apply slice_from_append.
    - clear. induction seg as [|c s IH]; simpl; [reflexivity | now rewrite IH]. }
  rewrite Hd, slice_prefix.
  pose proof (Index1_lt seg ";"%char) as Hb.
  destruct (Index seg ";" >? 0) eqn:E; [|reflexivity].
  apply Z.gtb_lt in E.
  rewrite !slice_append_within by lia. reflexivity.
Qed.

Lemma append_assoc (a b c : string) : (a ++ b) ++ c = a ++ b ++ c.
Proof. induction a as [|x a IH]; simpl; [reflexivity | now rewrite IH]. Qed.

Lemma len_pos (s : string) : s <> "" -> 0 < len s.
Proof. destruct s; [congruence|]. unfold len; simpl String.length; lia. Qed.

(** A segment [mt ++ ";" ++ enc] whose first semicolon is not its first
    byte splits at that semicolon. *)
Lemma dataURLParts_semicolon (mt enc data : string) :
  mt <> "" -> Index mt ";" < 0 -> Index (mt ++ ";" ++ enc) "," < 0 ->
  dataURLParts ((mt ++ ";" ++ enc) ++ "," ++ data) (len (mt ++ ";" ++ enc))
  = (mt, enc, data).
Proof.
  intros Hne Hs Hc.
  destruct (dataURLParts_segment (mt ++ ";" ++ enc) data Hc) as [_ ->].
  change (";" ++ enc) with (String ";"%char enc).
  rewrite (Index_first mt enc ";"%char Hs).
  pose proof (len_pos mt Hne) as Hp.
  destruct (len mt >? 0) eqn:E; [|rewrite Z.gtb_ltb in E; apply Z.ltb_ge in E; lia].
  rewrite slice_prefix. f_equal. f_equal.
  replace (mt ++ String ";"%char enc) with ((mt ++ ";") ++ enc)
    by (rewrite append_assoc; reflexivity).
  replace (len mt + 1) with (len (mt ++ ";")) by (rewrite len_append; reflexivity).
  apply slice_from_append.
Qed.

(** A segment without semicolon, or starting with one, is the media type
    as a whole. *)
Lemma dataURLParts_whole (seg data : string) :
  Index seg "," < 0 -> Index seg ";" <= 0 ->
  dataURLParts (seg ++ "," ++ data) (len seg) = (seg, EmptyString, data).
Proof.
  intros Hc Hs. destruct (dataURLParts_segment seg data Hc) as [_ ->].
  destruct (Index seg ";" >? 0) eqn:E; [apply Z.gtb_lt in E; lia | reflexivity].
Qed.

Lemma parseImageDataURL_prefixed (v : string) :
  parseImageDataURL ("data:" ++ v) =
    if Index v "," <? 0 then
      Err (Errorf "icon: invalid data URL (no comma) %q" [ArgString v])
    else
      let '(mediaType, encoding, data) := dataURLParts v (Index v ",") in
      if negb (HasPrefix mediaType "image/") then
        Err (Errorf "icon: invalid media type %q" [ArgString mediaType])
      else
        match decodeData v encoding data with
        | Err e => Err e
        | Ok blob =>
            if Z.of_nat (List.length blob) =? 0 then
              Err (Errorf "icon: empty data URL %q" [ArgString v])
            else
              Ok {| Hash := HashFromBytes blob;
                    Content := blob;
                    MimeType := mediaType |}
        end.
Proof.
  unfold parseImageDataURL.
  replace (HasPrefix ("data:" ++ v) "data:") with true
    by (symmetry; apply prefix_append).
  change 5 with (len "data:"). rewrite slice_from_append. reflexivity.
Qed.

(** ** Bit operations as arithmetic *)

Lemma lor_mul_pow2 (k b n : Z) :
  0 <= n -> 0 <= b < 2 ^ n -> Z.lor (k * 2 ^ n) b = k * 2 ^ n + b.
Proof.
  intros Hn Hb.
  assert (Hl : Z.land (k * 2 ^ n) b = 0).
  { apply Z.bits_inj'. intros i Hi. rewrite Z.land_spec, Z.bits_0.
    destruct (Z.lt_ge_cases i n) as [Hlt|Hge].
    - rewrite Z.mul_pow2_bits_low by lia. reflexivity.
    - rewrite <- (Z.mod_small b (2 ^ n)) by lia.
      rewrite Z.mod_pow2_bits_high by lia. apply andb_false_r. }
  rewrite (Z.add_nocarry_lxor _ _ Hl). symmetry. apply Z.lxor_lor, Hl.
Qed.

Lemma quantum_val_sum (v1 v2 v3 v4 : Z) :
  0 <= v2 < 64 -> 0 <= v3 < 64 -> 0 <= v4 < 64 ->
  quantum_val [v1; v2; v3; v4] = v1 * 262144 + v2 * 4096 + v3 * 64 + v4.
Proof.
  intros H2 H3 H4. unfold quantum_val. simpl nth.
  rewrite !Z.shiftl_mul_pow2 by lia.
  rewrite (lor_mul_pow2 v1 (v2 * 2 ^ 12) 18) by lia.
  replace (v1 * 2 ^ 18 + v2 * 2 ^ 12) with ((v1 * 64 + v2) * 2 ^ 12) by lia.
  rewrite (lor_mul_pow2 _ (v3 * 2 ^ 6) 12) by lia.
  replace ((v1 * 64 + v2) * 2 ^ 12 + v3 * 2 ^ 6)
    with (((v1 * 64 + v2) * 64 + v3) * 2 ^ 6) by lia.
  rewrite (lor_mul_pow2 _ v4 6) by lia. lia.
Qed.

Lemma bytes_val_sum (x y z : Z) :
  0 <= y < 256 -> 0 <= z < 256 ->
  Z.lor (Z.lor (Z.shiftl x 16) (Z.shiftl y 8)) z = x * 65536 + y * 256 + z.
Proof.
  intros Hy Hz. rewrite !Z.shiftl_mul_pow2 by lia.
  rewrite (lor_mul_pow2 x (y * 2 ^ 8) 16) by lia.
  replace (x * 2 ^ 16 + y * 2 ^ 8) with ((x * 256 + y) * 2 ^ 8) by lia.
  rewrite (lor_mul_pow2 _ z 8) by lia. lia.
Qed.

Lemma byte_to_Z_range (c : byte) : 0 <= byte_to_Z c < 256.
Proof.
  unfold byte_to_Z. pose proof (N_ascii_bounded c). lia.
Qed.

Lemma byte_to_of_Z (v : Z) : byte_to_Z (byte_of_Z v) = v mod 256.
Proof.
  unfold byte_to_Z, byte_of_Z.
  pose proof (Z.mod_pos_bound v 256 ltac:(lia)).
  rewrite N_ascii_embedding by lia. lia.
Qed.

Lemma byte_is_zero_mod (v : Z) :
  byte_is_zero (byte_of_Z v) = true -> v mod 256 = 0.
Proof.
  unfold byte_is_zero. intros H. apply Ascii.eqb_eq in H.
  rewrite <- byte_to_of_Z, H. reflexivity.
Qed.

Lemma encode_sextet_div (val k : Z) :
  0 <= k -> encode_sextet val k = encode_at ((val / 2 ^ k) mod 64).
Proof.
  intros Hk. unfold encode_sextet. rewrite Z.shiftr_div_pow2 by lia.
  change 63 with (Z.ones 6). rewrite Z.land_ones by lia. reflexivity.
Qed.

(** ** The base64 alphabet *)

Lemma decodeMap_range (c : byte) : decodeMap c = 255 \/ 0 <= decodeMap c < 64.
Proof.
  destruct c as [[] [] [] [] [] [] [] []]; vm_compute;
    first [left; reflexivity | right; split; [discriminate | reflexivity]].
Qed.

Lemma encode_at_decodeMap (c : byte) :
  decodeMap c <> 255 -> encode_at (decodeMap c) = c.
Proof.
  destruct c as [[] [] [] [] [] [] [] []]; vm_compute;
    first [reflexivity | congruence].
Qed.

(** ** One quantum, decoded and encoded again *)

Lemma quantum4_encode (v1 v2 v3 v4 : Z) (rest : list byte) :
  0 <= v1 < 64 -> 0 <= v2 < 64 -> 0 <= v3 < 64 -> 0 <= v4 < 64 ->
  let val := quantum_val [v1; v2; v3; v4] in
  EncodeToString (byte_of_Z (Z.shiftr val 16) :: byte_of_Z (Z.shiftr val 8)
                    :: byte_of_Z (Z.shiftr val 0) :: rest)
  = String (encode_at v1) (String (encode_at v2) (String (encode_at v3)
      (String (encode_at v4) (EncodeToString rest)))).
Proof.
  intros H1 H2 H3 H4 val.
  assert (Hv : val = v1 * 262144 + v2 * 4096 + v3 * 64 + v4)
    by (apply quantum_val_sum; assumption).
  cbn [EncodeToString].
  rewrite bytes_val_sum by apply byte_to_Z_range.
  rewrite !byte_to_of_Z, !Z.shiftr_div_pow2 by lia.
  replace (val / 2 ^ 16 mod 256 * 65536 + val / 2 ^ 8 mod 256 * 256 + val / 2 ^ 0 mod 256)
    with val by (rewrite Hv; change (2 ^ 16) with 65536; change (2 ^ 8) with 256;
                 change (2 ^ 0) with 1; Z.div_mod_to_equations; lia).
  rewrite !encode_sextet_div by lia.
  replace (val / 2 ^ 18 mod 64) with v1
    by (rewrite Hv; change (2 ^ 18) with 262144; Z.div_mod_to_equations; lia).
  replace (val / 2 ^ 12 mod 64) with v2
    by (rewrite Hv; change (2 ^ 12) with 4096; Z.div_mod_to_equations; lia).
  replace (val / 2 ^ 6 mod 64) with v3
    by (rewrite Hv; change (2 ^ 6) with 64; Z.div_mod_to_equations; lia).
  replace (val / 2 ^ 0 mod 64) with v4
    by (rewrite Hv; change (2 ^ 0) with 1; Z.div_mod_to_equations; lia).
  reflexivity.
Qed.

Lemma quantum3_encode (v1 v2 v3 : Z) :
  0 <= v1 < 64 -> 0 <= v2 < 64 -> 0 <= v3 < 64 ->
  let val := quantum_val [v1; v2; v3] in
  byte_is_zero (byte_of_Z (Z.shiftr val 0)) = true ->
  EncodeToString [byte_of_Z (Z.shiftr val 16); byte_of_Z (Z.shiftr val 8)]
  = String (encode_at v1) (String (encode_at v2) (String (encode_at v3)
      (String padChar EmptyString))).
Proof.
  intros H1 H2 H3 val Hz.
  assert (Hv : val = v1 * 262144 + v2 * 4096 + v3 * 64 + 0)
    by (apply (quantum_val_sum v1 v2 v3 0); lia).
  apply byte_is_zero_mod in Hz. rewrite Z.shiftr_div_pow2 in Hz by lia.
  cbn [EncodeToString].
  rewrite <- (Z.lor_0_r (Z.lor _ _)).
  rewrite bytes_val_sum by (try apply byte_to_Z_range; lia).
  rewrite !byte_to_of_Z, !Z.shiftr_div_pow2 by lia.
  replace (val / 2 ^ 16 mod 256 * 65536 + val / 2 ^ 8 mod 256 * 256 + 0)
    with val by (revert Hz; rewrite Hv; change (2 ^ 16) with 65536;
                 change (2 ^ 8) with 256; change (2 ^ 0) with 1;
                 Z.div_mod_to_equations; lia).
  rewrite !encode_sextet_div by lia.
  replace (val / 2 ^ 18 mod 64) with v1
    by (rewrite Hv; change (2 ^ 18) with 262144; Z.div_mod_to_equations; lia).
  replace (val / 2 ^ 12 mod 64) with v2
    by (rewrite Hv; change (2 ^ 12) with 4096; Z.div_mod_to_equations; lia).
  replace (val / 2 ^ 6 mod 64) with v3
    by (rewrite Hv; change (2 ^ 6) with 64; Z.div_mod_to_equations; lia).
  reflexivity.
Qed.

Lemma quantum2_encode (v1 v2 : Z) :
  0 <= v1 < 64 -> 0 <= v2 < 64 ->
  let val := quantum_val [v1; v2] in
  byte_is_zero (byte_of_Z (Z.shiftr val 8)) = true ->
  byte_is_zero (byte_of_Z (Z.shiftr val 0)) = true ->
  EncodeToString [byte_of_Z (Z.shiftr val 16)]
  = String (encode_at v1) (String (encode_at v2)
      (String padChar (String padChar EmptyString))).
Proof.
  intros H1 H2 val Hz1 Hz0.
  assert (Hv : val = v1 * 262144 + v2 * 4096 + 0 * 64 + 0)
    by (apply (quantum_val_sum v1 v2 0 0); lia).
  apply byte_is_zero_mod in Hz1, Hz0.
  rewrite Z.shiftr_div_pow2 in Hz1, Hz0 by lia.
  cbn [EncodeToString].
  rewrite Z.shiftl_mul_pow2 by lia.
  rewrite !byte_to_of_Z, !Z.shiftr_div_pow2 by lia.
  replace (val / 2 ^ 16 mod 256 * 2 ^ 16)
    with val by (revert Hz1 Hz0; rewrite Hv; change (2 ^ 16) with 65536;
                 change (2 ^ 8) with 256; change (2 ^ 0) with 1;
                 Z.div_mod_to_equations; lia).
  rewrite !encode_sextet_div by lia.
  replace (val / 2 ^ 18 mod 64) with v1
    by (rewrite Hv; change (2 ^ 18) with 262144; Z.div_mod_to_equations; lia).
  replace (val / 2 ^ 12 mod 64) with v2
    by (rewrite Hv; change (2 ^ 12) with 4096; Z.div_mod_to_equations; lia).
  reflexivity.
Qed.

(** ** The decoder, one byte at a time *)

Lemma decode_from_unfold (strict : bool) (c : byte) (rest : string) (si : Z)
    (dbuf : list Z) :
  decode_from strict (String c rest) si dbuf =
    if negb (decodeMap c =? 255) then
      if (List.length (dbuf ++ [decodeMap c]) =? 4)%nat then
        match convert_quantum strict (dbuf ++ [decodeMap c]) 4 (si + 1) None with
        | Ok q =>
            match decode_from strict rest (si + 1) [] with
            | Ok bs => Ok (q ++ bs)%list
            | Err e => Err e
            end
        | Err e => Err e
        end
      else decode_from strict rest (si + 1) (dbuf ++ [decodeMap c])
    else if is_newline c then decode_from strict rest (si + 1) dbuf
    else if negb (Ascii.eqb c padChar) then Err (CorruptInputError (si + 1 - 1))
    else decode_padding strict rest (si + 1) dbuf.
Proof. reflexivity. Qed.

Lemma skip_no_newline (s : string) :
  has_newline s = false -> skip_newlines s = s /\ count_newlines s = 0.
Proof.
  destruct s as [|c s]; [split; reflexivity|]. simpl.
  intros H. apply orb_false_iff in H as [-> _]. split; reflexivity.
Qed.

Lemma convert_quantum_lenient (dbuf : list Z) (dlen : nat) (si : Z)
    (err : option error) (q : list byte) :
  convert_quantum true dbuf dlen si err = Ok q ->
  convert_quantum false dbuf dlen si err = Ok q.
Proof.
  unfold convert_quantum.
  destruct dlen as [|[|[|[|[|n]]]]]; try exact (fun H => H); cbn [andb].
  - destruct (negb _ || negb _); [discriminate | exact (fun H => H)].
  - destruct (negb _); [discriminate | exact (fun H => H)].
Qed.

Lemma after_padding_lenient (rest : string) (si : Z) (dbuf : list Z)
    (q : list byte) :
  after_padding true rest si dbuf = Ok q -> after_padding false rest si dbuf = Ok q.
Proof. unfold after_padding. apply convert_quantum_lenient. Qed.

Lemma decode_padding_lenient (rest : string) (si : Z) (dbuf : list Z)
    (q : list byte) :
  decode_padding true rest si dbuf = Ok q -> decode_padding false rest si dbuf = Ok q.
Proof.
  unfold decode_padding.
  destruct (List.length dbuf) as [|[|[|n]]]; try discriminate.
  - destruct (skip_newlines rest) as [|c r]; [discriminate|].
    destruct (negb (Ascii.eqb c padChar)); [discriminate|].
    apply after_padding_lenient.
  - apply after_padding_lenient.
Qed.

(** Whatever the strict decoder accepts, [StdEncoding] decodes to the same
    bytes. *)
Lemma decode_from_lenient (src : string) :
  forall (si : Z) (dbuf : list Z) (bs : list byte),
    decode_from true src si dbuf = Ok bs -> decode_from false src si dbuf = Ok bs.
Proof.
  induction src as [|c rest IH]; intros si dbuf bs.
  - simpl. exact (fun H => H).
  - rewrite !decode_from_unfold.
    destruct (negb (decodeMap c =? 255)).
    + destruct (List.length (dbuf ++ [decodeMap c]) =? 4)%nat.
      * destruct (convert_quantum true _ 4 _ None) as [q|e] eqn:Eq; [|discriminate].
        rewrite (convert_quantum_lenient _ _ _ _ _ Eq).
        destruct (decode_from true rest (si + 1) []) as [bs'|e] eqn:Er; [|discriminate].
        rewrite (IH _ _ _ Er). exact (fun H => H).
      * apply IH.
    + destruct (is_newline c); [apply IH|].
      destruct (negb (Ascii.eqb c padChar)); [discriminate|].
      apply decode_padding_lenient.
Qed.

Lemma decode_step_sextet (strict : bool) (c : byte) (rest : string) (si : Z)
    (dbuf : list Z) :
  0 <= decodeMap c < 64 ->
  decode_from strict (String c rest) si dbuf =
    if (List.length (dbuf ++ [decodeMap c]) =? 4)%nat then
      match convert_quantum strict (dbuf ++ [decodeMap c]) 4 (si + 1) None with
      | Ok q =>
          match decode_from strict rest (si + 1) [] with
          | Ok bs => Ok (q ++ bs)%list
          | Err e => Err e
          end
      | Err e => Err e
      end
    else decode_from strict rest (si + 1) (dbuf ++ [decodeMap c]).
Proof.
  intros H. rewrite decode_from_unfold.
  replace (decodeMap c =? 255) with false by (symmetry; apply Z.eqb_neq; lia).
  reflexivity.
Qed.

Lemma decode_step_other (strict : bool) (c : byte) (rest : string) (si : Z)
    (dbuf : list Z) (bs : list byte) :
  decodeMap c = 255 -> is_newline c = false ->
  decode_from strict (String c rest) si dbuf = Ok bs ->
  c = padChar /\ decode_padding strict rest (si + 1) dbuf = Ok bs.
Proof.
  intros H Hn. rewrite decode_from_unfold, H, Hn. simpl negb at 1. cbv iota.
  destruct (Ascii.eqb c padChar) eqn:E; simpl negb; cbv iota; [|discriminate].
  apply Ascii.eqb_eq in E. auto.
Qed.

Lemma after_padding_strict (rest : string) (si : Z) (dbuf : list Z)
    (bs : list byte) :
  has_newline rest = false ->
  after_padding true rest si dbuf = Ok bs ->
  rest = EmptyString /\
  convert_quantum true dbuf (List.length dbuf) (si + 0) None = Ok bs.
Proof.
  intros Hn. unfold after_padding.
  destruct (skip_no_newline rest Hn) as [-> ->].
  destruct rest as [|c r]; [auto|].
  unfold convert_quantum.
  destruct (List.length dbuf) as [|[|[|[|[|n]]]]]; try discriminate.
  - destruct (_ && _); discriminate.
  - destruct (_ && _); discriminate.
Qed.

(** On input without line breaks, what the strict decoder accepts is what
    the encoder produces from the decoded bytes. *)
Lemma strict_decode_encode (n : nat) :
  forall (src : string) (si : Z) (bs : list byte),
    (String.length src <= n)%nat ->
    has_newline src = false ->
    decode_from true src si [] = Ok bs ->
    EncodeToString bs = src.
Proof.
  induction n as [|n IH]; intros src si bs Hlen Hnl Hd.
  { destruct src; simpl in Hlen; [|lia]. simpl in Hd. injection Hd as <-. reflexivity. }
  destruct src as [|c1 src]; [simpl in Hd; injection Hd as <-; reflexivity|].
  simpl has_newline in Hnl. apply orb_false_iff in Hnl as [Hn1 Hnl].
  destruct (decodeMap_range c1) as [E1|R1].
  { destruct (decode_step_other _ _ _ _ _ _ E1 Hn1 Hd) as [_ Hp]. discriminate Hp. }
  rewrite (decode_step_sextet _ _ _ _ _ R1) in Hd. cbn [List.length app Nat.eqb] in Hd.
  destruct src as [|c2 src]; [discriminate Hd|].
  simpl has_newline in Hnl. apply orb_false_iff in Hnl as [Hn2 Hnl].
  destruct (decodeMap_range c2) as [E2|R2].
  { destruct (decode_step_other _ _ _ _ _ _ E2 Hn2 Hd) as [_ Hp]. discriminate Hp. }
  rewrite (decode_step_sextet _ _ _ _ _ R2) in Hd. cbn [List.length app Nat.eqb] in Hd.
  destruct src as [|c3 src]; [discriminate Hd|].
  simpl has_newline in Hnl. apply orb_false_iff in Hnl as [Hn3 Hnl].
  assert (D1 : encode_at (decodeMap c1) = c1) by (apply encode_at_decodeMap; lia).
  assert (D2 : encode_at (decodeMap c2) = c2) by (apply encode_at_decodeMap; lia).
  destruct (decodeMap_range c3) as [E3|R3].
  { (* two sextets and "==" *)
    destruct (decode_step_other _ _ _ _ _ _ E3 Hn3 Hd) as [-> Hp].
    unfold decode_padding in Hp. cbn [List.length] in Hp.
    destruct (skip_no_newline src Hnl) as [Hs Hc]. rewrite Hs, Hc in Hp.
    destruct src as [|c4 rest]; [discriminate Hp|].
    simpl has_newline in Hnl. apply orb_false_iff in Hnl as [Hn4 Hnl].
    destruct (Ascii.eqb c4 padChar) eqn:E4; cbn [negb] in Hp; [|discriminate Hp].
    apply Ascii.eqb_eq in E4. subst c4.
    apply (after_padding_strict _ _ _ _ Hnl) in Hp as [-> Hp].
    unfold convert_quantum in Hp. cbn [List.length andb] in Hp.
    destruct (byte_is_zero (byte_of_Z (Z.shiftr (quantum_val [decodeMap c1; decodeMap c2]) 8)))
      eqn:Z1; cbn [negb orb] in Hp; [|discriminate Hp].
    destruct (byte_is_zero (byte_of_Z (Z.shiftr (quantum_val [decodeMap c1; decodeMap c2]) 0)))
      eqn:Z0; cbn [negb] in Hp; [|discriminate Hp].
    injection Hp as <-.
    rewrite (quantum2_encode _ _ R1 R2 Z1 Z0), D1, D2. reflexivity. }
  rewrite (decode_step_sextet _ _ _ _ _ R3) in Hd. cbn [List.length app Nat.eqb] in Hd.
  assert (D3 : encode_at (decodeMap c3) = c3) by (apply encode_at_decodeMap; lia).
  destruct src as [|c4 rest]; [discriminate Hd|].
  simpl has_newline in Hnl. apply orb_false_iff in Hnl as [Hn4 Hnl].
  destruct (decodeMap_range c4) as [E4|R4].
  { (* three sextets and "=" *)
    destruct (decode_step_other _ _ _ _ _ _ E4 Hn4 Hd) as [-> Hp].
    unfold decode_padding in Hp. cbn [List.length] in Hp.
    apply (after_padding_strict _ _ _ _ Hnl) in Hp as [-> Hp].
    unfold convert_quantum in Hp. cbn [List.length andb] in Hp.
    destruct (byte_is_zero
                (byte_of_Z (Z.shiftr (quantum_val [decodeMap c1; decodeMap c2; decodeMap c3]) 0)))
      eqn:Z0; cbn [negb] in Hp; [|discriminate Hp].
    injection Hp as <-.
    rewrite (quantum3_encode _ _ _ R1 R2 R3 Z0), D1, D2, D3. reflexivity. }
  (* a full quantum *)
  rewrite (decode_step_sextet _ _ _ _ _ R4) in Hd. cbn [List.length app Nat.eqb] in Hd.
  assert (D4 : encode_at (decodeMap c4) = c4) by (apply encode_at_decodeMap; lia).
  unfold convert_quantum in Hd.
  destruct (decode_from true rest (si + 1 + 1 + 1 + 1) []) as [bs'|e] eqn:Er;
    [|discriminate Hd].
  injection Hd as <-. cbn [app].
  rewrite (quantum4_encode _ _ _ _ bs' R1 R2 R3 R4), D1, D2, D3, D4.
  do 4 f_equal. apply (IH rest (si + 1 + 1 + 1 + 1) bs'); [simpl in Hlen; lia | exact Hnl | exact Er].
Qed.

(** ** The encoder, decoded again *)

Lemma byte_of_Z_eq (v : Z) (c : byte) : v mod 256 = byte_to_Z c -> byte_of_Z v = c.
Proof.
  intros H. unfold byte_of_Z. rewrite H. unfold byte_to_Z.
  rewrite N2Z.id. apply ascii_N_embedding.
Qed.

Lemma byte_is_zero_of_mod (v : Z) : v mod 256 = 0 -> byte_is_zero (byte_of_Z v) = true.
Proof. intros H. unfold byte_is_zero, byte_of_Z. rewrite H. reflexivity. Qed.

Lemma decodeMap_encode_at (s : Z) : 0 <= s < 64 -> decodeMap (encode_at s) = s.
Proof.
  intros H. rewrite <- (Z2Nat.id s) by lia.
  assert (Hn : (Z.to_nat s < 64)%nat) by lia.
  generalize dependent (Z.to_nat s). clear. intros n Hn.
  do 64 (destruct n as [|n]; [vm_compute; reflexivity|]). lia.
Qed.

Lemma encode_at_not_newline (s : Z) : 0 <= s < 64 -> is_newline (encode_at s) = false.
Proof.
  intros H. rewrite <- (Z2Nat.id s) by lia.
  assert (Hn : (Z.to_nat s < 64)%nat) by lia.
  generalize dependent (Z.to_nat s). clear. intros n Hn.
  do 64 (destruct n as [|n]; [vm_compute; reflexivity|]). lia.
Qed.

Lemma decodeMap_encode_sextet (val k : Z) :
  0 <= k -> decodeMap (encode_sextet val k) = (val / 2 ^ k) mod 64.
Proof.
  intros Hk. rewrite encode_sextet_div by lia.
  apply decodeMap_encode_at, Z.mod_pos_bound. lia.
Qed.

Lemma decode_sextet_step (strict : bool) (val k : Z) (rest : string) (si : Z)
    (dbuf : list Z) :
  0 <= k ->
  decode_from strict (String (encode_sextet val k) rest) si dbuf =
    if Nat.eqb (List.length (dbuf ++ [(val / 2 ^ k) mod 64])) 4 then
      match convert_quantum strict (dbuf ++ [(val / 2 ^ k) mod 64]) 4 (si + 1) None with
      | Ok q =>
          match decode_from strict rest (si + 1) [] with
          | Ok bs => Ok (q ++ bs)%list
          | Err e => Err e
          end
      | Err e => Err e
      end
    else decode_from strict rest (si + 1) (dbuf ++ [(val / 2 ^ k) mod 64]).
Proof.
  intros Hk. rewrite decode_step_sextet.
  - rewrite decodeMap_encode_sextet by lia. reflexivity.
  - rewrite decodeMap_encode_sextet by lia. apply Z.mod_pos_bound. lia.
Qed.

(** Decoding what the encoder writes gives the bytes back, in strict mode
    too. *)
Lemma decode_encode (strict : bool) (n : nat) :
  forall (bs : list byte) (si : Z),
    (List.length bs <= n)%nat ->
    decode_from strict (EncodeToString bs) si [] = Ok bs.
Proof.
  induction n as [|n IH]; intros bs si Hlen.
  { destruct bs; [reflexivity | simpl in Hlen; lia]. }
  destruct bs as [|b0 [|b1 [|b2 rest]]]; [reflexivity | | |].
  - (* one byte, two symbols and "==" *)
    cbn [EncodeToString].
    pose proof (byte_to_Z_range b0) as R0.
    rewrite Z.shiftl_mul_pow2 by lia. set (val := byte_to_Z b0 * 2 ^ 16).
    rewrite !decode_sextet_step by lia. cbn [List.length app Nat.eqb].
    rewrite decode_from_unfold.
    change (decodeMap padChar =? 255) with true. cbn [negb].
    change (is_newline padChar) with false. rewrite Ascii.eqb_refl. cbn [negb].
    unfold decode_padding. cbn [List.length skip_newlines count_newlines].
    change (is_newline padChar) with false. cbv iota. rewrite Ascii.eqb_refl. cbn [negb].
    unfold after_padding. cbn [skip_newlines count_newlines List.length].
    unfold convert_quantum.
    assert (Hq : quantum_val [val / 2 ^ 18 mod 64; val / 2 ^ 12 mod 64] = val).
    { transitivity (quantum_val [val / 2 ^ 18 mod 64; val / 2 ^ 12 mod 64; 0; 0]);
        [reflexivity|].
      rewrite quantum_val_sum by (try apply Z.mod_pos_bound; lia).
      subst val. change (2 ^ 16) with 65536. change (2 ^ 18) with 262144.
      change (2 ^ 12) with 4096. Z.div_mod_to_equations. lia. }
    rewrite Hq, !Z.shiftr_div_pow2 by lia.
    rewrite !byte_is_zero_of_mod
      by (subst val; change (2 ^ 16) with 65536; change (2 ^ 8) with 256;
          change (2 ^ 0) with 1; Z.div_mod_to_equations; lia).
    rewrite andb_false_r. do 2 f_equal.
    apply byte_of_Z_eq. subst val. change (2 ^ 16) with 65536.
    Z.div_mod_to_equations. lia.
  - (* two bytes, three symbols and "=" *)
    cbn [EncodeToString].
    pose proof (byte_to_Z_range b0) as R0. pose proof (byte_to_Z_range b1) as R1.
    rewrite <- (Z.lor_0_r (Z.lor _ _)). rewrite bytes_val_sum by lia.
    set (val := byte_to_Z b0 * 65536 + byte_to_Z b1 * 256 + 0).
    rewrite !decode_sextet_step by lia. cbn [List.length app Nat.eqb].
    rewrite decode_from_unfold.
    change (decodeMap padChar =? 255) with true. cbn [negb].
    change (is_newline padChar) with false. rewrite Ascii.eqb_refl. cbn [negb].
    unfold decode_padding. cbn [List.length].
    unfold after_padding. cbn [skip_newlines count_newlines List.length].
    unfold convert_quantum.
    assert (Hq : quantum_val [val / 2 ^ 18 mod 64; val / 2 ^ 12 mod 64; val / 2 ^ 6 mod 64]
                 = val).
    { transitivity (quantum_val [val / 2 ^ 18 mod 64; val / 2 ^ 12 mod 64;
                                 val / 2 ^ 6 mod 64; 0]); [reflexivity|].
      rewrite quantum_val_sum by (try apply Z.mod_pos_bound; lia).
      subst val. change (2 ^ 18) with 262144. change (2 ^ 12) with 4096.
      change (2 ^ 6) with 64. Z.div_mod_to_equations. lia. }
    rewrite Hq, !Z.shiftr_div_pow2 by lia.
    rewrite !byte_is_zero_of_mod
      by (subst val; change (2 ^ 0) with 1; Z.div_mod_to_equations; lia).
    rewrite andb_false_r. f_equal. f_equal; [|f_equal].
    + apply byte_of_Z_eq. subst val. change (2 ^ 16) with 65536.
      Z.div_mod_to_equations. lia.
    + apply byte_of_Z_eq. subst val. change (2 ^ 8) with 256.
      Z.div_mod_to_equations. lia.
  - (* three bytes, a full quantum *)
    cbn [EncodeToString].
    pose proof (byte_to_Z_range b0) as R0. pose proof (byte_to_Z_range b1) as R1.
    pose proof (byte_to_Z_range b2) as R2.
    rewrite bytes_val_sum by lia.
    set (val := byte_to_Z b0 * 65536 + byte_to_Z b1 * 256 + byte_to_Z b2).
    rewrite !decode_sextet_step by lia. cbn [List.length app Nat.eqb].
    unfold convert_quantum.
    assert (Hq : quantum_val [val / 2 ^ 18 mod 64; val / 2 ^ 12 mod 64;
                              val / 2 ^ 6 mod 64; val / 2 ^ 0 mod 64] = val).
    { rewrite quantum_val_sum by (apply Z.mod_pos_bound; lia).
      subst val. change (2 ^ 18) with 262144. change (2 ^ 12) with 4096.
      change (2 ^ 6) with 64. change (2 ^ 0) with 1. Z.div_mod_to_equations. lia. }
    rewrite Hq, !Z.shiftr_div_pow2 by lia.
    rewrite (IH rest) by (simpl in Hlen; lia). cbn [app].
    f_equal. f_equal; [|f_equal; [|f_equal]].
    + apply byte_of_Z_eq. subst val. change (2 ^ 16) with 65536.
      Z.div_mod_to_equations. lia.
    + apply byte_of_Z_eq. subst val. change (2 ^ 8) with 256.
      Z.div_mod_to_equations. lia.
    + apply byte_of_Z_eq. subst val. change (2 ^ 0) with 1.
      Z.div_mod_to_equations. lia.
Qed.

Lemma encode_sextet_not_newline (val k : Z) :
  0 <= k -> is_newline (encode_sextet val k) = false.
Proof.
  intros Hk. rewrite encode_sextet_div by lia.
  apply encode_at_not_newline, Z.mod_pos_bound. lia.
Qed.

Lemma EncodeToString_no_newline (n : nat) :
  forall bs : list byte,
    (List.length bs <= n)%nat -> has_newline (EncodeToString bs) = false.
Proof.
  induction n as [|n IH]; intros bs Hlen.
  { destruct bs; [reflexivity | simpl in Hlen; lia]. }
  destruct bs as [|b0 [|b1 [|b2 rest]]]; [reflexivity | | |];
    cbn [EncodeToString has_newline];
    rewrite ?encode_sextet_not_newline by lia; try reflexivity.
  cbn [orb]. apply IH. simpl in Hlen. lia.
Qed.

(** The encoder writes canonical text. *)
Lemma EncodeToString_canonical (bs : list byte) :
  canonical_base64 (EncodeToString bs) = true.
Proof.
  unfold canonical_base64, DecodeString.
  rewrite (EncodeToString_no_newline (List.length bs) bs (le_n _)).
  rewrite (decode_encode true (List.length bs) bs 0 (le_n _)). reflexivity.
Qed.

(** ** The data-URL decoder *)

Lemma parseImageDataURL_Ok (value : string) (icon : Icon) :
  parseImageDataURL value = Ok icon ->
  exists mediaType encoding data,
    HasPrefix value "data:" = true /\
    0 <= Index (slice_from value 5) "," /\
    dataURLParts (slice_from value 5) (Index (slice_from value 5) ",")
      = (mediaType, encoding, data) /\
    HasPrefix mediaType "image/" = true /\
    decodeData (slice_from value 5) encoding data = Ok (Content icon) /\
    Content icon <> [] /\
    icon = {| Hash := HashFromBytes (Content icon);
              MimeType := mediaType;
              Content := Content icon |}.
Proof.
  unfold parseImageDataURL.
  destruct (HasPrefix value "data:") eqn:Ep; cbn [negb]; [|discriminate].
  destruct (Index (slice_from value 5) "," <? 0) eqn:Ec; [discriminate|].
  apply Z.ltb_ge in Ec.
  destruct (dataURLParts _ _) as [[mediaType encoding] data] eqn:Ed.
  destruct (HasPrefix mediaType "image/") eqn:Em; cbn [negb]; [|discriminate].
  destruct (decodeData _ encoding data) as [blob|e] eqn:Eb; [|discriminate].
  destruct (Z.of_nat (List.length blob) =? 0) eqn:El; [discriminate|].
  intros H. injection H as <-. cbn [Content].
  exists mediaType, encoding, data.
  repeat split; try assumption; try reflexivity.
  intros ->. discriminate El.
Qed.

Lemma parseImageDataURL_parts (v mediaType encoding data : string) :
  0 <= Index v "," ->
  dataURLParts v (Index v ",") = (mediaType, encoding, data) ->
  parseImageDataURL ("data:" ++ v) =
    if negb (HasPrefix mediaType "image/") then
      Err (Errorf "icon: invalid media type %q" [ArgString mediaType])
    else
      match decodeData v encoding data with
      | Err e => Err e
      | Ok blob =>
          if Z.of_nat (List.length blob) =? 0 then
            Err (Errorf "icon: empty data URL %q" [ArgString v])
          else
            Ok {| Hash := HashFromBytes blob;
                  Content := blob;
                  MimeType := mediaType |}
      end.
Proof.
  intros Hc Hp. rewrite parseImageDataURL_prefixed.
  replace (Index v "," <? 0) with false by (symmetry; apply Z.ltb_ge; exact Hc).
  rewrite Hp. reflexivity.
Qed.

Lemma Index1_zero (s : string) (c : byte) :
  Index s (String c "") = 0 -> exists r, s = String c r.
Proof.
  destruct s as [|d s]; [rewrite Index1_nil; discriminate|].
  rewrite Index1_cons. destruct (Ascii.eqb c d) eqn:E.
  - apply Ascii.eqb_eq in E. subst d. eauto.
  - pose proof (Index_bounds s (String c "")).
    destruct (Index s (String c "") <? 0) eqn:E'; [discriminate|].
    apply Z.ltb_ge in E'. lia.
Qed.

(** C5 (amended).  For a data URL whose segment [seg] between the [data:]
    prefix and the first comma is followed by [data]: if [seg] is
    [mt ++ ";" ++ enc] with [mt] non-empty and free of semicolons, the media
    type is [mt] and the encoding token is [enc]; if [seg] contains no
    semicolon, or starts with one, the whole of [seg] is the media type and
    the encoding token is empty. *)
Theorem data_URL_header_split (seg data : string) :
  Index seg "," < 0 ->
  let value := seg ++ "," ++ data in
  let comma := Index value "," in
  comma = len seg /\
  (forall mt enc, seg = mt ++ ";" ++ enc -> mt <> "" -> Index mt ";" < 0 ->
     dataURLParts value comma = (mt, enc, data)) /\
  (Index seg ";" < 0 -> dataURLParts value comma = (seg, "", data)) /\
  (forall enc, seg = ";" ++ enc -> dataURLParts value comma = (seg, "", data)).
Proof.
  intros Hc value comma.
  assert (Hi : comma = len seg) by (apply (Index_first seg data ","%char Hc)).
  rewrite Hi. split; [reflexivity|]. split; [|split].
  - intros mt enc -> Hne Hs. apply dataURLParts_semicolon; assumption.
  - intros Hs. apply dataURLParts_whole; [assumption | lia].
  - intros enc ->. apply dataURLParts_whole; [assumption|].
    change (";" ++ enc) with (String ";"%char enc).
    rewrite Index1_cons, Ascii.eqb_refl. lia.
Qed.

(** C3.  [parseImageDataURL] returns a malformed-data-URL error when the
    text after [data:] has no comma, when the parsed media type does not
    start with [image/], and when the encoding token is neither [base64]
    nor empty. *)
Theorem malformed_data_URL_rejected :
  (forall v, Index v "," < 0 ->
     exists e, parseImageDataURL ("data:" ++ v) = Err e /\
               e = Errorf "icon: invalid data URL (no comma) %q" [ArgString v] /\
               malformed_data_URL e = true) /\
  (forall v mediaType encoding data,
     0 <= Index v "," ->
     dataURLParts v (Index v ",") = (mediaType, encoding, data) ->
     HasPrefix mediaType "image/" = false ->
     exists e, parseImageDataURL ("data:" ++ v) = Err e /\
               e = Errorf "icon: invalid media type %q" [ArgString mediaType] /\
               malformed_data_URL e = true) /\
  (forall v mediaType encoding data,
     0 <= Index v "," ->
     dataURLParts v (Index v ",") = (mediaType, encoding, data) ->
     encoding <> "base64" -> encoding <> "" ->
     exists e, parseImageDataURL ("data:" ++ v) = Err e /\
               (HasPrefix mediaType "image/" = true ->
                e = Errorf "icon: unsupported data URL encoding %q" [ArgString v]) /\
               malformed_data_URL e = true) /\
  (forall mt enc data,
     Index mt ";" < 0 -> Index (mt ++ ";" ++ enc) "," < 0 ->
     enc <> "base64" -> enc <> "" ->
     exists e, parseImageDataURL ("data:" ++ (mt ++ ";" ++ enc) ++ "," ++ data) = Err e /\
               malformed_data_URL e = true).
Proof.
  assert (Henc : forall v mediaType encoding data,
     0 <= Index v "," ->
     dataURLParts v (Index v ",") = (mediaType, encoding, data) ->
     encoding <> "base64" -> encoding <> "" ->
     exists e, parseImageDataURL ("data:" ++ v) = Err e /\
               (HasPrefix mediaType "image/" = true ->
                e = Errorf "icon: unsupported data URL encoding %q" [ArgString v]) /\
               malformed_data_URL e = true).
  { intros v mediaType encoding data Hc Hp Hb He.
    rewrite (parseImageDataURL_parts _ _ _ _ Hc Hp).
    destruct (HasPrefix mediaType "image/"); cbn [negb].
    - unfold decodeData.
      apply String.eqb_neq in Hb, He. rewrite Hb, He.
      eexists; split; [reflexivity|]. split; reflexivity.
    - eexists; split; [reflexivity|]. split; [discriminate | reflexivity]. }
  split; [|split; [|split]].
  - intros v Hc. rewrite parseImageDataURL_prefixed.
    replace (Index v "," <? 0) with true by (symmetry; apply Z.ltb_lt; exact Hc).
    eexists; split; [reflexivity|]. split; reflexivity.
  - intros v mediaType encoding data Hc Hp Hm.
    rewrite (parseImageDataURL_parts _ _ _ _ Hc Hp), Hm. cbn [negb].
    eexists; split; [reflexivity|]. split; reflexivity.
  - exact Henc.
  - intros mt enc data Hs Hc Hb He.
    pose proof (Index_first _ data ","%char Hc) as Hi.
    change (String ","%char data) with ("," ++ data) in Hi.
    destruct (string_dec mt "") as [->|Hne].
    + assert (H0 : Index (";" ++ enc) ";" <= 0).
      { change (";" ++ enc) with (String ";"%char enc).
        rewrite Index1_cons, Ascii.eqb_refl. lia. }
      pose proof (dataURLParts_whole (";" ++ enc) data Hc H0) as Hp.
      change ("" ++ ";" ++ enc) with (";" ++ enc) in Hi |- *.
      rewrite <- Hi in Hp.
      rewrite (parseImageDataURL_parts _ _ _ _ ltac:(rewrite Hi; apply len_nonneg) Hp).
      eexists; split; reflexivity.
    + pose proof (dataURLParts_semicolon mt enc data Hne Hs Hc) as Hp.
      rewrite <- Hi in Hp.
      destruct (Henc _ _ _ _ ltac:(rewrite Hi; apply len_nonneg) Hp Hb He)
        as (e & H1 & _ & H3).
      exists e. split; assumption.
Qed.

(** C4.  With an empty encoding token the payload is decoded by
    [url.QueryUnescape], and the call fails when that fails; with the token
    [base64] it is decoded by [base64.StdEncoding.DecodeString], and the call
    fails when that fails. *)
Theorem data_URL_payload_decoding :
  (forall v mediaType encoding data,
     0 <= Index v "," ->
     dataURLParts v (Index v ",") = (mediaType, encoding, data) ->
     HasPrefix mediaType "image/" = true ->
     (encoding = "" ->
      parseImageDataURL ("data:" ++ v) =
        match QueryUnescape data with
        | Err _ => Err (Errorf "icon: unable to decode data URL %q" [ArgString v])
        | Ok decodedData =>
            match bytes_of_string decodedData with
            | [] => Err (Errorf "icon: empty data URL %q" [ArgString v])
            | blob => Ok {| Hash := HashFromBytes blob;
                            MimeType := mediaType;
                            Content := blob |}
            end
        end) /\
     (encoding = "base64" ->
      parseImageDataURL ("data:" ++ v) =
        match DecodeString false data with
        | Err err =>
            Err (Errorf "icon: invalid data %q (%v)" [ArgString v; ArgError err])
        | Ok [] => Err (Errorf "icon: empty data URL %q" [ArgString v])
        | Ok blob => Ok {| Hash := HashFromBytes blob;
                           MimeType := mediaType;
                           Content := blob |}
        end)) /\
  (forall mt data,
     Index mt "," < 0 -> Index mt ";" < 0 -> HasPrefix mt "image/" = true ->
     parseImageDataURL ("data:" ++ mt ++ "," ++ data) =
       match QueryUnescape data with
       | Err _ =>
           Err (Errorf "icon: unable to decode data URL %q"
                       [ArgString (mt ++ "," ++ data)])
       | Ok decodedData =>
           match bytes_of_string decodedData with
           | [] => Err (Errorf "icon: empty data URL %q"
                               [ArgString (mt ++ "," ++ data)])
           | blob => Ok {| Hash := HashFromBytes blob;
                           MimeType := mt;
                           Content := blob |}
           end
       end) /\
  (forall mt data,
     Index mt "," < 0 -> Index mt ";" < 0 -> HasPrefix mt "image/" = true ->
     parseImageDataURL ("data:" ++ mt ++ ";base64," ++ data) =
       match DecodeString false data with
       | Err err =>
           Err (Errorf "icon: invalid data %q (%v)"
                       [ArgString (mt ++ ";base64," ++ data); ArgError err])
       | Ok [] => Err (Errorf "icon: empty data URL %q"
                              [ArgString (mt ++ ";base64," ++ data)])
       | Ok blob => Ok {| Hash := HashFromBytes blob;
                          MimeType := mt;
                          Content := blob |}
       end).
Proof.
  assert (Hgen : forall v mediaType encoding data,
     0 <= Index v "," ->
     dataURLParts v (Index v ",") = (mediaType, encoding, data) ->
     HasPrefix mediaType "image/" = true ->
     encoding = "" ->
      parseImageDataURL ("data:" ++ v) =
        match QueryUnescape data with
        | Err _ => Err (Errorf "icon: unable to decode data URL %q" [ArgString v])
        | Ok decodedData =>
            match bytes_of_string decodedData with
            | [] => Err (Errorf "icon: empty data URL %q" [ArgString v])
            | blob => Ok {| Hash := HashFromBytes blob;
                            MimeType := mediaType;
                            Content := blob |}
            end
        end).
  { intros v mediaType encoding data Hc Hp Hm ->.
    rewrite (parseImageDataURL_parts _ _ _ _ Hc Hp), Hm. cbn [negb].
    unfold decodeData. cbn [String.eqb].
    destruct (QueryUnescape data) as [d|e]; [|reflexivity].
    destruct (bytes_of_string d); reflexivity. }
  assert (Hb64 : forall v mediaType data,
     0 <= Index v "," ->
     dataURLParts v (Index v ",") = (mediaType, "base64", data) ->
     HasPrefix mediaType "image/" = true ->
      parseImageDataURL ("data:" ++ v) =
        match DecodeString false data with
        | Err err =>
            Err (Errorf "icon: invalid data %q (%v)" [ArgString v; ArgError err])
        | Ok [] => Err (Errorf "icon: empty data URL %q" [ArgString v])
        | Ok blob => Ok {| Hash := HashFromBytes blob;
                           MimeType := mediaType;
                           Content := blob |}
        end).
  { intros v mediaType data Hc Hp Hm.
    rewrite (parseImageDataURL_parts _ _ _ _ Hc Hp), Hm. cbn [negb].
    unfold decodeData. cbn [String.eqb Ascii.eqb Bool.eqb].
    destruct (DecodeString false data) as [blob|e]; [|reflexivity].
    destruct blob; reflexivity. }
  split; [|split].
  - intros v mediaType encoding data Hc Hp Hm. split.
    + apply Hgen; assumption.
    + intros ->. apply Hb64; assumption.
  - intros mt data Hc Hs Hm.
    pose proof (Index_first mt data ","%char Hc) as Hi.
    change (String ","%char data) with ("," ++ data) in Hi.
    apply (Hgen (mt ++ "," ++ data) mt "" data).
    + rewrite Hi. apply len_nonneg.
    + rewrite Hi. apply dataURLParts_whole; [assumption | lia].
    + assumption.
    + reflexivity.
  - intros mt data Hc Hs Hm.
    assert (Hne : mt <> "") by (intros ->; discriminate Hm).
    assert (Hcs : Index (mt ++ ";" ++ "base64") "," < 0).
    { change (";" ++ "base64") with ";base64".
      rewrite (Index_absent_append mt ";base64" ","%char Hc). reflexivity. }
    replace (mt ++ ";base64," ++ data) with ((mt ++ ";" ++ "base64") ++ "," ++ data)
      by (rewrite append_assoc; reflexivity).
    pose proof (Index_first _ data ","%char Hcs) as Hi.
    change (String ","%char data) with ("," ++ data) in Hi.
    apply (Hb64 _ mt data).
    + rewrite Hi. apply len_nonneg.
    + rewrite Hi. apply dataURLParts_semicolon; assumption.
    + assumption.
Qed.

Lemma substring_length (s : string) (n m : nat) :
  (n + m <= String.length s)%nat -> String.length (substring n m s) = m.
Proof.
  revert n m; induction s as [|c s IH]; intros n m H; simpl in H.
  - assert (n = 0%nat) by lia. assert (m = 0%nat) by lia. subst. reflexivity.
  - destruct n as [|n]; simpl.
    + destruct m as [|m]; [reflexivity|]. simpl. f_equal. apply IH. lia.
    + apply IH. lia.
Qed.

Lemma slice_len (s : string) (lo hi : Z) :
  0 <= lo <= hi -> hi <= len s -> len (slice s lo hi) = hi - lo.
Proof.
  intros H1 H2. unfold len, slice in *. rewrite substring_length; lia.
Qed.

(** A segment [mt ++ ";base64"] is accepted only when its encoding token is
    [base64] itself. *)
Lemma base64_segment_parts (mt b64 mediaType encoding data : string) :
  Index mt "," < 0 ->
  dataURLParts ((mt ++ ";base64") ++ "," ++ b64) (len (mt ++ ";base64"))
    = (mediaType, encoding, data) ->
  HasPrefix mediaType "image/" = true ->
  (encoding = "base64" \/ encoding = "") ->
  encoding = "base64" /\ data = b64.
Proof.
  intros Hc Hp Hm He.
  assert (Hcs : Index (mt ++ ";base64") "," < 0).
  { rewrite (Index_absent_append mt ";base64" ","%char Hc). reflexivity. }
  destruct (Z.lt_ge_cases (Index mt ";") 0) as [Hs|Hs].
  - destruct (string_dec mt "") as [->|Hne].
    + vm_compute in Hp. injection Hp as <- <- <-. discriminate Hm.
    + pose proof (dataURLParts_semicolon mt "base64" b64 Hne Hs Hcs) as Hq.
      change (";" ++ "base64") with ";base64" in Hq. rewrite Hq in Hp.
      injection Hp as <- <- <-. auto.
  - exfalso.
    destruct (dataURLParts_segment _ b64 Hcs) as [_ Hq]. rewrite Hq in Hp. clear Hq.
    rewrite (Index_append_present mt ";base64" ";"%char Hs) in Hp.
    pose proof (Index1_lt mt ";"%char) as Hlt.
    destruct (Index mt ";" >? 0) eqn:E.
    + injection Hp as <- <- <-.
      assert (Hl : len (slice (mt ++ ";base64") (Index mt ";" + 1) (len (mt ++ ";base64")))
                   = len (mt ++ ";base64") - (Index mt ";" + 1)).
      { apply slice_len; rewrite ?len_append; change (len ";base64") with 7; lia. }
      destruct He as [He|He]; rewrite He, len_append in Hl;
        vm_compute (len (String _ _)) in Hl; vm_compute (len "") in Hl; lia.
    + rewrite Z.gtb_ltb in E. apply Z.ltb_ge in E.
      assert (H0 : Index mt ";" = 0) by lia.
      destruct (Index1_zero _ _ H0) as [r ->].
      injection Hp as <- <- <-. discriminate Hm.
Qed.

(** C9 (amended).  For an accepted input [data:<mt>;base64,<b64>] (with no
    comma in [mt]), encoding the decoded payload with standard base64 gives
    [<b64>] back exactly when [<b64>] is canonical, that is without line
    break and with zero padding bits; in every case the text obtained decodes
    to the same payload. *)
Theorem base64_data_URL_roundtrip (mt b64 : string) (icon : Icon) :
  Index mt "," < 0 ->
  parseImageDataURL ("data:" ++ mt ++ ";base64," ++ b64) = Ok icon ->
  (canonical_base64 b64 = true <-> EncodeToString (Content icon) = b64) /\
  DecodeString false (EncodeToString (Content icon)) = Ok (Content icon).
Proof.
  intros Hc Hok. split.
  2: { apply (decode_encode false (List.length (Content icon))). apply le_n. }
  split; [|intros <-; apply EncodeToString_canonical].
  intros Hcan.
  replace (mt ++ ";base64," ++ b64) with ((mt ++ ";base64") ++ "," ++ b64) in Hok
    by (rewrite append_assoc; reflexivity).
  apply parseImageDataURL_Ok in Hok
    as (mediaType & encoding & data & _ & _ & Hp & Hm & Hd & _ & _).
  change 5 with (len "data:") in Hp, Hd. rewrite slice_from_append in Hp, Hd.
  assert (Hcs : Index (mt ++ ";base64") "," < 0).
  { rewrite (Index_absent_append mt ";base64" ","%char Hc). reflexivity. }
  change ("," ++ b64) with (String ","%char b64) in Hp.
  rewrite (Index_first _ b64 ","%char Hcs) in Hp.
  assert (He : encoding = "base64" \/ encoding = "").
  { unfold decodeData in Hd.
    destruct (String.eqb_spec encoding "base64"); [auto|].
    destruct (String.eqb_spec encoding ""); [auto | discriminate Hd]. }
  destruct (base64_segment_parts _ _ _ _ _ Hc Hp Hm He) as [-> ->].
  unfold decodeData in Hd. cbn [String.eqb Ascii.eqb Bool.eqb] in Hd.
  unfold canonical_base64 in Hcan. apply andb_true_iff in Hcan as [Hn Hs].
  apply negb_true_iff in Hn.
  unfold DecodeString in *.
  destruct (decode_from true b64 0 []) as [bs|e] eqn:Es; [|discriminate Hs].
  rewrite (decode_from_lenient _ _ _ _ Es) in Hd. injection Hd as <-.
  apply (strict_decode_encode (String.length b64) b64 0 bs); auto.
Qed.

(** ** The HTML icon scanner *)

Lemma last_cons_default {A} (x d : A) (l : list A) : last (x :: l) d = last l x.
Proof.
  revert x d; induction l as [|y l IH]; intros x d; [reflexivity|].
  change (last (x :: y :: l) d) with (last (y :: l) d).
  rewrite (IH y d), (IH y x). reflexivity.
Qed.

Lemma Each_href_last (selection : list Node) (iconURL : string) :
  Each_href iconURL selection = last (map TrimSpace (hrefs selection)) iconURL.
Proof.
  unfold Each_href. revert iconURL.
  induction selection as [|s sel IH]; intros iconURL; [reflexivity|].
  cbn [fold_left]. rewrite IH. unfold each_href, hrefs. cbn [flat_map].
  destruct (Attr s "href") as [href|]; [|reflexivity].
  cbn [app map]. rewrite last_cons_default. reflexivity.
Qed.

Lemma scan_queries_spec (doc : Node) (qs : list Selector) :
  scan_queries doc qs "" = first_non_empty (map (selector_yield doc) qs).
Proof.
  induction qs as [|q qs IH]; [reflexivity|].
  cbn [scan_queries map first_non_empty].
  rewrite Each_href_last. fold (selector_yield doc q).
  destruct (String.eqb_spec (selector_yield doc q) "") as [->|]; cbn [negb];
    [exact IH | reflexivity].
Qed.

Lemma filter_filter_imp {A} (p p' : A -> bool) (l : list A) :
  (forall x, p x = true -> p' x = true) ->
  filter p (filter p' l) = filter p l.
Proof.
  intros H. induction l as [|x l IH]; [reflexivity|]. cbn [filter].
  destruct (p' x) eqn:E'; cbn [filter].
  - rewrite IH. reflexivity.
  - rewrite IH. destruct (p x) eqn:E; [|reflexivity].
    rewrite (H x E) in E'. discriminate.
Qed.

Lemma Find_icon_links (doc : Node) (q : Selector) :
  In q queries -> Find doc q = filter (matches q) (icon_links doc).
Proof.
  intros Hq. unfold Find, icon_links. symmetry. apply filter_filter_imp.
  intros n Hn. apply existsb_exists. exists q. auto.
Qed.

Lemma scan_queries_icon_links (doc : Node) :
  scan_queries doc queries "" =
    (fix scan (qs : list Selector) (iconURL : string) : string :=
       match qs with
       | [] => iconURL
       | query :: qs' =>
           let iconURL := Each_href iconURL (filter (matches query) (icon_links doc)) in
           if negb (String.eqb iconURL "") then iconURL else scan qs' iconURL
       end) queries "".
Proof.
  unfold queries. cbn [scan_queries].
  rewrite !Find_icon_links by (unfold queries; simpl; auto 6). reflexivity.
Qed.

(** C2.  The scanner returns what the first of the selectors
    [link[rel='shortcut icon']], [link[rel='Shortcut Icon']],
    [link[rel='icon shortcut']], [link[rel='icon']] with a non-empty yield
    yields, the yield of a selector being the trimmed [href] of its last
    match in document order that has one.  A document whose icon links are
    [<link rel="icon" href="/a.png">] and
    [<link rel="shortcut icon" href="/b.png">], in either order, gives
    [/b.png]. *)
Theorem scanner_priority_order (body : Reader) (doc : Node) :
  html_Parse body = Ok doc ->
  findIconURLFromHTMLDocument body = Ok (scanner_spec doc) /\
  (TrimSpace "/b.png" = "/b.png" ->
   icon_links doc = [link_a; link_b] \/ icon_links doc = [link_b; link_a] ->
   findIconURLFromHTMLDocument body = Ok "/b.png").
Proof.
  intros Hdoc. unfold findIconURLFromHTMLDocument, NewDocumentFromReader.
  rewrite Hdoc. split.
  - f_equal. apply scan_queries_spec.
  - intros Hb Hl. f_equal. rewrite scan_queries_icon_links.
    destruct Hl as [-> | ->]; cbn; rewrite Hb; reflexivity.
Qed.

(** C10.  In one selector pass a match with an [href] attribute replaces
    the candidate by the trimmed [href], blank or not, and a match without
    [href] leaves it as it is; so when the last match with an [href] has a
    blank one, the pass yields the empty string and the scan goes on with
    the next selector, whatever the earlier matches were. *)
Theorem blank_href_overwrites :
  (forall iconURL s href,
     Attr s "href" = Some href -> each_href iconURL s = TrimSpace href) /\
  (forall iconURL s, Attr s "href" = None -> each_href iconURL s = iconURL) /\
  (forall doc q qs before s after href,
     Find doc q = (before ++ s :: after)%list ->
     Attr s "href" = Some href ->
     TrimSpace href = "" ->
     Forall (fun t => Attr t "href" = None) after ->
     Each_href "" (Find doc q) = "" /\
     scan_queries doc (q :: qs) "" = scan_queries doc qs "").
Proof.
  split; [|split].
  - intros iconURL s href H. unfold each_href. rewrite H. reflexivity.
  - intros iconURL s H. unfold each_href. rewrite H. reflexivity.
  - intros doc q qs before s after href Hf Hs Ht Ha.
    assert (He : Each_href "" (Find doc q) = "").
    { rewrite Hf. unfold Each_href. rewrite fold_left_app. cbn [fold_left].
      unfold each_href at 2. rewrite Hs, Ht.
      clear Hf. induction Ha as [|t after Hn _ IH]; [reflexivity|].
      cbn [fold_left]. unfold each_href at 2. rewrite Hn. exact IH. }
    split; [exact He|]. cbn [scan_queries]. rewrite He. reflexivity.
Qed.

(** ** The URL resolver *)

Lemma scan_queries_no_link (doc : Node) :
  icon_links doc = [] -> scan_queries doc queries "" = "".
Proof. intros H. rewrite scan_queries_icon_links, H. reflexivity. Qed.

(** C6.  When the candidate trims to the empty string, [generateIconURL]
    returns the join of the root of the site URL with [favicon.ico]; this
    is the case of a page in which the scanner finds no icon link.
    Otherwise it returns the trimmed candidate made absolute against the
    site URL.  In both cases a failure of the URL library is returned as an
    error. *)
Theorem generateIconURL_cases (websiteURL feedIconURL : string) :
  (TrimSpace feedIconURL = "" ->
   generateIconURL websiteURL feedIconURL =
     match JoinBaseURLAndPath (RootURL websiteURL) "favicon.ico" with
     | Ok iconURL => Ok iconURL
     | Err err =>
         Err (Errorf "icon: unable to join base URL and path: %w" [ArgError err])
     end) /\
  (TrimSpace feedIconURL <> "" ->
   generateIconURL websiteURL feedIconURL =
     match AbsoluteURL websiteURL (TrimSpace feedIconURL) with
     | Ok iconURL => Ok iconURL
     | Err err =>
         Err (Errorf "icon: unable to convert icon URL to absolute URL: %w"
                     [ArgError err])
     end) /\
  (TrimSpace "" = "" ->
   forall doc, icon_links doc = [] ->
     scan_queries doc queries "" = "" /\
     generateIconURL websiteURL (scan_queries doc queries "") =
       match JoinBaseURLAndPath (RootURL websiteURL) "favicon.ico" with
       | Ok iconURL => Ok iconURL
       | Err err =>
           Err (Errorf "icon: unable to join base URL and path: %w" [ArgError err])
       end).
Proof.
  assert (Hempty : forall c, TrimSpace c = "" ->
    generateIconURL websiteURL c =
      match JoinBaseURLAndPath (RootURL websiteURL) "favicon.ico" with
      | Ok iconURL => Ok iconURL
      | Err err =>
          Err (Errorf "icon: unable to join base URL and path: %w" [ArgError err])
      end).
  { intros c H. unfold generateIconURL. rewrite H. cbn [String.eqb].
    destruct (JoinBaseURLAndPath _ _); reflexivity. }
  split; [|split].
  - apply Hempty.
  - intros H. unfold generateIconURL. apply String.eqb_neq in H. rewrite H.
    destruct (AbsoluteURL _ _); reflexivity.
  - intros H doc Hl. rewrite (scan_queries_no_link doc Hl).
    split; [reflexivity | apply Hempty, H].
Qed.

(** ** The icon fetcher *)

Lemma downloadIcon_unfold (iconURL userAgent : string)
    (fetchViaProxy allowSelfSignedCertificates : bool) (h : list Client) :
  let clt := newClient iconURL userAgent fetchViaProxy allowSelfSignedCertificates in
  downloadIcon iconURL userAgent fetchViaProxy allowSelfSignedCertificates h =
    (match network h clt with
     | Err err => Err (Errorf "icon: unable to download iconURL: %v" [ArgError err])
     | Ok response =>
         if HasServerFailure response then
           Err (Errorf "icon: unable to download icon: status=%d"
                       [ArgInt (StatusCode response)])
         else
           match reader_err (Body response) with
           | Some err =>
               Err (Errorf "icon: unable to read downloaded icon: %v" [ArgError err])
           | None =>
               match reader_bytes (Body response) with
               | [] => Err (Errorf "icon: downloaded icon is empty, iconURL=%s"
                                   [ArgString iconURL])
               | body => Ok {| Hash := HashFromBytes body;
                               MimeType := ContentType response;
                               Content := body |}
               end
           end
     end, (h ++ [clt])%list).
Proof.
  intros clt. unfold downloadIcon, bind, Get, ret. fold clt.
  destruct (network h clt) as [response|err]; [|reflexivity].
  destruct (HasServerFailure response); [reflexivity|].
  unfold ReadAll. destruct (reader_err (Body response)); [reflexivity|].
  destruct (reader_bytes (Body response)); reflexivity.
Qed.

(** C7.  [downloadIcon] sends one GET request.  It returns an error exactly
    when the transport fails, or the response has a server-failure status,
    or reading the body fails, or the body is empty.  The server-failure
    error carries the status code, the empty-content error the icon URL.
    In the remaining case the result is the icon made of the digest of the
    body, the content type of the response and the body. *)
Theorem downloadIcon_outcome (iconURL userAgent : string)
    (fetchViaProxy allowSelfSignedCertificates : bool) (h : list Client) :
  let clt := newClient iconURL userAgent fetchViaProxy allowSelfSignedCertificates in
  let out := downloadIcon iconURL userAgent fetchViaProxy allowSelfSignedCertificates h in
  snd out = (h ++ [clt])%list /\
  (is_Err (fst out) <->
     (exists err, network h clt = Err err) \/
     (exists response, network h clt = Ok response /\
        (HasServerFailure response = true \/
         (exists err, snd (ReadAll (Body response)) = Some err) \/
         fst (ReadAll (Body response)) = []))) /\
  (forall response,
     network h clt = Ok response -> HasServerFailure response = true ->
     fst out = Err (Errorf "icon: unable to download icon: status=%d"
                           [ArgInt (StatusCode response)])) /\
  (forall response,
     network h clt = Ok response -> HasServerFailure response = false ->
     ReadAll (Body response) = ([], None) ->
     fst out = Err (Errorf "icon: downloaded icon is empty, iconURL=%s"
                           [ArgString iconURL])) /\
  (forall response body,
     network h clt = Ok response -> HasServerFailure response = false ->
     ReadAll (Body response) = (body, None) -> body <> [] ->
     fst out = Ok {| Hash := HashFromBytes body;
                     MimeType := ContentType response;
                     Content := body |}).
Proof.
  intros clt out. subst out. rewrite downloadIcon_unfold. fold clt.
  cbn [fst snd]. unfold ReadAll. cbn [fst snd].
  split; [reflexivity|]. split; [|split; [|split]].
  - destruct (network h clt) as [response|err].
    + destruct (HasServerFailure response) eqn:Ef.
      * split; [intros _; right; exists response; auto | intros _; exact I].
      * destruct (reader_err (Body response)) as [err|] eqn:Er.
        { split; [intros _; right; exists response; eauto | intros _; exact I]. }
        destruct (reader_bytes (Body response)) as [|c body] eqn:Eb.
        { split; [intros _; right; exists response; auto | intros _; exact I]. }
        split; [intros []|].
        intros [[err H]|(r & H & [Hf|[[err Hr]|Hb]])]; try discriminate H;
          injection H as <-; congruence.
    + split; [intros _; left; eauto | intros _; exact I].
  - intros response -> ->. reflexivity.
  - intros response -> -> H. injection H as -> ->. reflexivity.
  - intros response body -> -> H Hne. injection H as -> ->.
    destruct body; [congruence | reflexivity].
Qed.

(** ** The orchestrator *)

Lemma fetch_page_history (websiteURL userAgent : string)
    (fetchViaProxy allowSelfSignedCertificates : bool) (h : list Client) :
  snd (fetchHTMLDocumentAndFindIconURL websiteURL userAgent fetchViaProxy
         allowSelfSignedCertificates h)
  = (h ++ [newClient (RootURL websiteURL) userAgent fetchViaProxy
                     allowSelfSignedCertificates])%list.
Proof.
  unfold fetchHTMLDocumentAndFindIconURL, bind, Get, ret.
  destruct (network h _) as [response|err]; [|reflexivity].
  destruct (HasServerFailure response); reflexivity.
Qed.

(** C8.  When the candidate icon URL starts with [data:], the result of
    [FindIcon] is [parseImageDataURL] of the candidate, and no request is
    sent for the icon: with a supplied [feedIconURL] the list of requests is
    unchanged, with a scanned page it holds the page request only.  The
    result does not mention [generateIconURL], [JoinBaseURLAndPath] or
    [AbsoluteURL]. *)
Theorem FindIcon_data_URL (websiteURL feedIconURL userAgent : string)
    (fetchViaProxy allowSelfSignedCertificates : bool) (h : list Client) :
  (feedIconURL <> "" ->
   HasPrefix feedIconURL "data:" = true ->
   FindIcon websiteURL feedIconURL userAgent fetchViaProxy
            allowSelfSignedCertificates h
   = (parseImageDataURL feedIconURL, h)) /\
  (feedIconURL = "" ->
   forall candidate h',
     fetchHTMLDocumentAndFindIconURL websiteURL userAgent fetchViaProxy
       allowSelfSignedCertificates h = (Ok candidate, h') ->
     HasPrefix candidate "data:" = true ->
     FindIcon websiteURL feedIconURL userAgent fetchViaProxy
              allowSelfSignedCertificates h
     = (parseImageDataURL candidate, h') /\
     h' = (h ++ [newClient (RootURL websiteURL) userAgent fetchViaProxy
                           allowSelfSignedCertificates])%list).
Proof.
  split.
  - intros Hne Hp. unfold FindIcon, bind, ret.
    apply String.eqb_neq in Hne. rewrite Hne, Hp. reflexivity.
  - intros -> candidate h' Hf Hp. split.
    + unfold FindIcon, bind, ret. cbn [String.eqb]. rewrite Hf, Hp. reflexivity.
    + rewrite <- fetch_page_history, Hf. reflexivity.
Qed.

Lemma downloadIcon_Ok (iconURL userAgent : string)
    (fetchViaProxy allowSelfSignedCertificates : bool) (h h' : list Client)
    (icon : Icon) :
  downloadIcon iconURL userAgent fetchViaProxy allowSelfSignedCertificates h
    = (Ok icon, h') ->
  Content icon <> [].
Proof.
  rewrite downloadIcon_unfold.
  destruct (network h _) as [response|err]; [|discriminate].
  destruct (HasServerFailure response); [discriminate|].
  destruct (reader_err (Body response)); [discriminate|].
  destruct (reader_bytes (Body response)); [discriminate|].
  intros H. injection H as <- _. discriminate.
Qed.

(** C1.  An icon returned by [parseImageDataURL], by [downloadIcon] or by
    [FindIcon] has a non-empty [Content]: a decoded payload of length zero
    makes [parseImageDataURL] return the empty-data-URL error, and a
    downloaded body of length zero makes [downloadIcon] return the
    empty-icon error. *)
Theorem icon_content_nonempty :
  (forall value icon, parseImageDataURL value = Ok icon -> Content icon <> []) /\
  (forall iconURL userAgent fetchViaProxy allowSelfSignedCertificates h icon h',
     downloadIcon iconURL userAgent fetchViaProxy allowSelfSignedCertificates h
       = (Ok icon, h') ->
     Content icon <> []) /\
  (forall websiteURL feedIconURL userAgent fetchViaProxy
          allowSelfSignedCertificates h icon h',
     FindIcon websiteURL feedIconURL userAgent fetchViaProxy
              allowSelfSignedCertificates h = (Ok icon, h') ->
     Content icon <> []) /\
  (forall v mediaType encoding data,
     0 <= Index v "," ->
     dataURLParts v (Index v ",") = (mediaType, encoding, data) ->
     HasPrefix mediaType "image/" = true ->
     decodeData v encoding data = Ok [] ->
     parseImageDataURL ("data:" ++ v)
     = Err (Errorf "icon: empty data URL %q" [ArgString v])) /\
  (forall iconURL userAgent fetchViaProxy allowSelfSignedCertificates h response,
     network h (newClient iconURL userAgent fetchViaProxy
                          allowSelfSignedCertificates) = Ok response ->
     HasServerFailure response = false ->
     ReadAll (Body response) = ([], None) ->
     fst (downloadIcon iconURL userAgent fetchViaProxy
                       allowSelfSignedCertificates h)
     = Err (Errorf "icon: downloaded icon is empty, iconURL=%s"
                   [ArgString iconURL])).
Proof.
  assert (Hparse : forall value icon,
            parseImageDataURL value = Ok icon -> Content icon <> []).
  { intros value icon H.
    apply parseImageDataURL_Ok in H as (? & ? & ? & _ & _ & _ & _ & _ & H & _).
    exact H. }
  split; [exact Hparse|]. split; [|split; [|split]].
  - intros. eapply downloadIcon_Ok; eassumption.
  - intros websiteURL feedIconURL userAgent fetchViaProxy
           allowSelfSignedCertificates h icon h'.
    unfold FindIcon, bind, ret.
    destruct (if String.eqb feedIconURL "" then _ else _) as [[candidate|err] h1];
      [|discriminate].
    destruct (HasPrefix candidate "data:").
    + intros H. injection H as H _. exact (Hparse _ _ H).
    + destruct (generateIconURL websiteURL candidate) as [iconURL|err];
        [|discriminate].
      destruct (downloadIcon iconURL _ _ _ h1) as [[icon'|err] h2] eqn:Ed;
        [|discriminate].
      intros H. injection H as <- _. eapply downloadIcon_Ok; eassumption.
  - intros v mediaType encoding data Hc Hp Hm Hd.
    rewrite (parseImageDataURL_parts _ _ _ _ Hc Hp), Hm, Hd. reflexivity.
  - intros iconURL userAgent fetchViaProxy allowSelfSignedCertificates h response
           Hn Hf Hr.
    rewrite downloadIcon_unfold. cbn [fst]. rewrite Hn, Hf.
    unfold ReadAll in Hr. injection Hr as -> ->. reflexivity.
Qed.

(** ** More on the orchestrator *)


(** What [FindIcon] does once the candidate is known. *)
Lemma FindIcon_candidate (websiteURL feedIconURL userAgent : string)
    (fetchViaProxy allowSelfSignedCertificates : bool) (h h1 : list Client)
    (candidate : string) :
  (if String.eqb feedIconURL "" then
     fetchHTMLDocumentAndFindIconURL websiteURL userAgent fetchViaProxy
       allowSelfSignedCertificates
   else ret (Ok feedIconURL)) h = (Ok candidate, h1) ->
  FindIcon websiteURL feedIconURL userAgent fetchViaProxy
           allowSelfSignedCertificates h
  = if HasPrefix candidate "data:" then (parseImageDataURL candidate, h1)
    else match generateIconURL websiteURL candidate with
         | Err err => (Err err, h1)
         | Ok iconURL =>
             downloadIcon iconURL userAgent fetchViaProxy
                          allowSelfSignedCertificates h1
         end.
Proof.
  intros H. unfold FindIcon, bind. rewrite H.
  destruct (HasPrefix candidate "data:"); [reflexivity|].
  destruct (generateIconURL websiteURL candidate) as [iconURL|err]; [|reflexivity].
  unfold ret.
  destruct (downloadIcon iconURL _ _ _ h1) as [[icon|err] h2]; reflexivity.
Qed.

Lemma FindIcon_no_candidate (websiteURL feedIconURL userAgent : string)
    (fetchViaProxy allowSelfSignedCertificates : bool) (h h1 : list Client)
    (err : error) :
  (if String.eqb feedIconURL "" then
     fetchHTMLDocumentAndFindIconURL websiteURL userAgent fetchViaProxy
       allowSelfSignedCertificates
   else ret (Ok feedIconURL)) h = (Err err, h1) ->
  FindIcon websiteURL feedIconURL userAgent fetchViaProxy
           allowSelfSignedCertificates h = (Err err, h1).
Proof. intros H. unfold FindIcon, bind. rewrite H. reflexivity. Qed.


Lemma fetch_page_unfold (websiteURL userAgent : string)
    (fetchViaProxy allowSelfSignedCertificates : bool) (h : list Client) :
  let clt := newClient (RootURL websiteURL) userAgent fetchViaProxy
                       allowSelfSignedCertificates in
  fetchHTMLDocumentAndFindIconURL websiteURL userAgent fetchViaProxy
    allowSelfSignedCertificates h =
    (match network h clt with
     | Err err =>
         Err (Errorf "icon: unable to download website index page: %v" [ArgError err])
     | Ok response =>
         if HasServerFailure response then
           Err (Errorf "icon: unable to download website index page: status=%d"
                       [ArgInt (StatusCode response)])
         else
           match html_Parse (Body response) with
           | Err err => Err (Errorf "icon: unable to read document: %v" [ArgError err])
           | Ok doc => Ok (scan_queries doc queries "")
           end
     end, (h ++ [clt])%list).
Proof.
  intros clt. unfold fetchHTMLDocumentAndFindIconURL, bind, Get, ret. fold clt.
  destruct (network h clt) as [response|err]; [|reflexivity].
  destruct (HasServerFailure response); [reflexivity|].
  unfold findIconURLFromHTMLDocument, NewDocumentFromReader.
  destruct (html_Parse (Body response)); reflexivity.
Qed.

(** X2.  When no [feedIconURL] is given and the page cannot be had, [FindIcon]
    returns the error of that step after the one page request: the wrapped
    transport error, the status of a failing server, or the wrapped parser
    error.  When the candidate cannot be resolved into a URL, [FindIcon]
    returns the error of [generateIconURL] and sends no request for an icon. *)
Theorem FindIcon_failures (websiteURL userAgent : string)
    (fetchViaProxy allowSelfSignedCertificates : bool) (h : list Client) :
  let page := newClient (RootURL websiteURL) userAgent fetchViaProxy
                        allowSelfSignedCertificates in
  let find feedIconURL :=
    FindIcon websiteURL feedIconURL userAgent fetchViaProxy
             allowSelfSignedCertificates h in
  (forall err,
     network h page = Err err ->
     find "" = (Err (Errorf "icon: unable to download website index page: %v"
                            [ArgError err]), (h ++ [page])%list)) /\
  (forall response,
     network h page = Ok response -> HasServerFailure response = true ->
     find "" = (Err (Errorf "icon: unable to download website index page: status=%d"
                            [ArgInt (StatusCode response)]), (h ++ [page])%list)) /\
  (forall response err,
     network h page = Ok response -> HasServerFailure response = false ->
     html_Parse (Body response) = Err err ->
     find "" = (Err (Errorf "icon: unable to read document: %v" [ArgError err]),
                (h ++ [page])%list)) /\
  (forall response doc err,
     network h page = Ok response -> HasServerFailure response = false ->
     html_Parse (Body response) = Ok doc ->
     HasPrefix (scan_queries doc queries "") "data:" = false ->
     generateIconURL websiteURL (scan_queries doc queries "") = Err err ->
     find "" = (Err err, (h ++ [page])%list)) /\
  (forall feedIconURL err,
     feedIconURL <> "" -> HasPrefix feedIconURL "data:" = false ->
     generateIconURL websiteURL feedIconURL = Err err ->
     find feedIconURL = (Err err, h)).
Proof.
  intros page find. subst find. cbv beta.
  pose proof (fetch_page_unfold websiteURL userAgent fetchViaProxy
                allowSelfSignedCertificates h) as Hf.
  cbv zeta in Hf. fold page in Hf.
  split; [|split; [|split; [|split]]].
  - intros err Hn. rewrite Hn in Hf.
    apply (FindIcon_no_candidate _ "" _ _ _ _ _ _ Hf).
  - intros response Hn Hs. rewrite Hn, Hs in Hf.
    apply (FindIcon_no_candidate _ "" _ _ _ _ _ _ Hf).
  - intros response err Hn Hs Hp. rewrite Hn, Hs, Hp in Hf.
    apply (FindIcon_no_candidate _ "" _ _ _ _ _ _ Hf).
  - intros response doc err Hn Hs Hp Hd Hg. rewrite Hn, Hs, Hp in Hf.
    rewrite (FindIcon_candidate _ "" _ _ _ _ _ _ Hf), Hd, Hg. reflexivity.
  - intros feedIconURL err Hne Hd Hg.
    assert (Hc : (if String.eqb feedIconURL "" then
                    fetchHTMLDocumentAndFindIconURL websiteURL userAgent fetchViaProxy
                      allowSelfSignedCertificates
                  else ret (Ok feedIconURL)) h = (Ok feedIconURL, h)).
    { apply String.eqb_neq in Hne. rewrite Hne. reflexivity. }
    rewrite (FindIcon_candidate _ _ _ _ _ _ _ _ Hc), Hd, Hg. reflexivity.
Qed.

(** X3.  A [feedIconURL] that is not empty and does not start with [data:] is
    downloaded without a look at the page.  If it is blank (it trims to the
    empty string) the icon is [favicon.ico] at the root of the site;
    otherwise it is the trimmed text made absolute against the site URL, even
    when that text starts with [data:] after trimming. *)
Theorem FindIcon_supplied_URL (websiteURL feedIconURL userAgent : string)
    (fetchViaProxy allowSelfSignedCertificates : bool) (h : list Client) :
  feedIconURL <> "" ->
  HasPrefix feedIconURL "data:" = false ->
  (TrimSpace feedIconURL = "" ->
   forall iconURL,
     JoinBaseURLAndPath (RootURL websiteURL) "favicon.ico" = Ok iconURL ->
     FindIcon websiteURL feedIconURL userAgent fetchViaProxy
              allowSelfSignedCertificates h
     = downloadIcon iconURL userAgent fetchViaProxy allowSelfSignedCertificates h) /\
  (TrimSpace feedIconURL <> "" ->
   forall iconURL,
     AbsoluteURL websiteURL (TrimSpace feedIconURL) = Ok iconURL ->
     FindIcon websiteURL feedIconURL userAgent fetchViaProxy
              allowSelfSignedCertificates h
     = downloadIcon iconURL userAgent fetchViaProxy allowSelfSignedCertificates h).
Proof.
  intros Hne Hd.
  assert (Hc : (if String.eqb feedIconURL "" then
                  fetchHTMLDocumentAndFindIconURL websiteURL userAgent fetchViaProxy
                    allowSelfSignedCertificates
                else ret (Ok feedIconURL)) h = (Ok feedIconURL, h)).
  { apply String.eqb_neq in Hne. rewrite Hne. reflexivity. }
  rewrite (FindIcon_candidate _ _ _ _ _ _ _ _ Hc), Hd.
  unfold generateIconURL. split.
  - intros Ht iconURL Hj. rewrite Ht, Hj. reflexivity.
  - intros Ht iconURL Ha. apply String.eqb_neq in Ht. rewrite Ht, Ha. reflexivity.
Qed.

Lemma downloadIcon_Ok_inv (iconURL userAgent : string)
    (fetchViaProxy allowSelfSignedCertificates : bool) (h h' : list Client)
    (icon : Icon) :
  downloadIcon iconURL userAgent fetchViaProxy allowSelfSignedCertificates h
    = (Ok icon, h') ->
  exists response,
    network h (newClient iconURL userAgent fetchViaProxy allowSelfSignedCertificates)
      = Ok response /\
    HasServerFailure response = false /\
    reader_err (Body response) = None /\
    icon = {| Hash := HashFromBytes (reader_bytes (Body response));
              MimeType := ContentType response;
              Content := reader_bytes (Body response) |}.
Proof.
  rewrite downloadIcon_unfold.
  destruct (network h _) as [response|err]; [|discriminate].
  destruct (HasServerFailure response) eqn:Ef; [discriminate|].
  destruct (reader_err (Body response)) eqn:Er; [discriminate|].
  destruct (reader_bytes (Body response)) eqn:Eb; [discriminate|].
  intros H. injection H as <- _. exists response.
  rewrite Eb. repeat split; auto.
Qed.

(** X4.  In every icon that is returned, [Hash] is the digest of [Content];
    an icon decoded from a data URL has a [MimeType] that starts with
    [image/], an icon that was downloaded has the content type of the response
    as it came. *)
Theorem icon_hash_of_content :
  (forall value icon,
     parseImageDataURL value = Ok icon ->
     Hash icon = HashFromBytes (Content icon) /\
     HasPrefix (MimeType icon) "image/" = true) /\
  (forall iconURL userAgent fetchViaProxy allowSelfSignedCertificates h icon h',
     downloadIcon iconURL userAgent fetchViaProxy allowSelfSignedCertificates h
       = (Ok icon, h') ->
     Hash icon = HashFromBytes (Content icon) /\
     exists response,
       network h (newClient iconURL userAgent fetchViaProxy
                            allowSelfSignedCertificates) = Ok response /\
       MimeType icon = ContentType response /\
       Content icon = reader_bytes (Body response)) /\
  (forall websiteURL feedIconURL userAgent fetchViaProxy
          allowSelfSignedCertificates h icon h',
     FindIcon websiteURL feedIconURL userAgent fetchViaProxy
              allowSelfSignedCertificates h = (Ok icon, h') ->
     Hash icon = HashFromBytes (Content icon)).
Proof.
  assert (Hparse : forall value icon,
     parseImageDataURL value = Ok icon ->
     Hash icon = HashFromBytes (Content icon) /\
     HasPrefix (MimeType icon) "image/" = true).
  { intros value icon H.
    apply parseImageDataURL_Ok in H as (mt & enc & data & _ & _ & _ & Hm & _ & _ & Hi).
    rewrite Hi. cbn [Hash Content MimeType]. auto. }
  assert (Hdown : forall iconURL userAgent fetchViaProxy allowSelfSignedCertificates
                         h icon h',
     downloadIcon iconURL userAgent fetchViaProxy allowSelfSignedCertificates h
       = (Ok icon, h') ->
     Hash icon = HashFromBytes (Content icon) /\
     exists response,
       network h (newClient iconURL userAgent fetchViaProxy
                            allowSelfSignedCertificates) = Ok response /\
       MimeType icon = ContentType response /\
       Content icon = reader_bytes (Body response)).
  { intros iconURL userAgent fetchViaProxy allowSelfSignedCertificates h icon h' H.
    apply downloadIcon_Ok_inv in H as (response & Hn & _ & _ & ->).
    cbn [Hash Content MimeType]. split; [reflexivity|]. exists response. auto. }
  split; [exact Hparse|]. split; [exact Hdown|].
  intros websiteURL feedIconURL userAgent fetchViaProxy
         allowSelfSignedCertificates h icon h' H.
  destruct ((if String.eqb feedIconURL "" then
               fetchHTMLDocumentAndFindIconURL websiteURL userAgent fetchViaProxy
                 allowSelfSignedCertificates
             else ret (Ok feedIconURL)) h) as [[candidate|err] h1] eqn:Ec.
  - rewrite (FindIcon_candidate _ _ _ _ _ _ _ _ Ec) in H.
    destruct (HasPrefix candidate "data:").
    + injection H as H _. apply (Hparse _ _ H).
    + destruct (generateIconURL websiteURL candidate) as [iconURL|e]; [|discriminate].
      apply (Hdown _ _ _ _ _ _ _ H).
  - rewrite (FindIcon_no_candidate _ _ _ _ _ _ _ _ Ec) in H. discriminate.
Qed.

(** ** More on the scanner *)

Lemma first_non_empty_In (l : list string) :
  first_non_empty l = "" \/ (In (first_non_empty l) l /\ first_non_empty l <> "").
Proof.
  induction l as [|x l IH]; [left; reflexivity|]. cbn [first_non_empty].
  destruct (String.eqb_spec x "") as [->|Hx].
  - destruct IH as [IH|[IH1 IH2]]; [left; exact IH | right; split; [right|]; assumption].
  - right. split; [left; reflexivity | exact Hx].
Qed.

Lemma last_default_or_In {A} (l : list A) (d : A) : last l d = d \/ In (last l d) l.
Proof.
  induction l as [|x l IH]; [left; reflexivity|].
  destruct l as [|y l]; [right; left; reflexivity|].
  change (last (x :: y :: l) d) with (last (y :: l) d).
  destruct IH as [IH|IH]; [left; exact IH | right; right; exact IH].
Qed.

Lemma hrefs_In (selection : list Node) (href : string) :
  In href (hrefs selection) ->
  exists s, In s selection /\ Attr s "href" = Some href.
Proof.
  unfold hrefs. intros H. apply in_flat_map in H as (s & Hs & Hh).
  exists s. split; [exact Hs|].
  destruct (Attr s "href") as [h|]; [|destruct Hh].
  destruct Hh as [->|[]]. reflexivity.
Qed.

(** X5.  The scanner fails exactly when the document cannot be parsed, with
    the parser's error wrapped.  On a parsed document it returns either the
    empty string or the non-empty trimmed [href] of an element that one of the
    four selectors matches; it never returns anything else. *)
Theorem scanner_outcome (body : Reader) :
  (forall err,
     html_Parse body = Err err ->
     findIconURLFromHTMLDocument body
     = Err (Errorf "icon: unable to read document: %v" [ArgError err])) /\
  (forall doc,
     html_Parse body = Ok doc ->
     exists iconURL,
       findIconURLFromHTMLDocument body = Ok iconURL /\
       (iconURL = "" \/
        (iconURL <> "" /\
         exists s href,
           In s (icon_links doc) /\ Attr s "href" = Some href /\
           iconURL = TrimSpace href))).
Proof.
  unfold findIconURLFromHTMLDocument, NewDocumentFromReader. split.
  - intros err ->. reflexivity.
  - intros doc ->. eexists; split; [reflexivity|].
    rewrite scan_queries_spec.
    destruct (first_non_empty_In (map (selector_yield doc) queries)) as [H|[H Hne]];
      [left; exact H | right; split; [exact Hne|]].
    apply in_map_iff in H as (q & Hq & Hin). rewrite <- Hq in Hne |- *.
    unfold selector_yield in Hne |- *.
    destruct (last_default_or_In (map TrimSpace (hrefs (Find doc q))) "") as [Hl|Hl];
      [congruence|].
    apply in_map_iff in Hl as (href & Hh & Hl).
    apply hrefs_In in Hl as (s & Hs & Ha).
    rewrite (Find_icon_links doc q Hin) in Hs. apply filter_In in Hs as [Hs _].
    exists s, href. auto.
Qed.

(** X6.  The result of the scanner depends on the document only through the
    elements the four selectors match, taken in document order: two documents
    with the same matched elements give the same result, whatever else they
    contain and however the elements are nested. *)
Theorem scanner_depends_on_icon_links (body1 body2 : Reader) (doc1 doc2 : Node) :
  html_Parse body1 = Ok doc1 ->
  html_Parse body2 = Ok doc2 ->
  icon_links doc1 = icon_links doc2 ->
  findIconURLFromHTMLDocument body1 = findIconURLFromHTMLDocument body2.
Proof.
  intros H1 H2 Hl. unfold findIconURLFromHTMLDocument, NewDocumentFromReader.
  rewrite H1, H2, !scan_queries_icon_links, Hl. reflexivity.
Qed.

(** X7.  In a document without match for the three [shortcut icon]
    selectors, the scanner returns the trimmed [href] of the last
    [link[rel='icon']] element that has an [href], and the empty string when
    there is none. *)
Theorem scanner_last_icon (body : Reader) (doc : Node) :
  html_Parse body = Ok doc ->
  Find doc (mkSelector "link" "rel" "shortcut icon") = [] ->
  Find doc (mkSelector "link" "rel" "Shortcut Icon") = [] ->
  Find doc (mkSelector "link" "rel" "icon shortcut") = [] ->
  findIconURLFromHTMLDocument body
  = Ok (last (map TrimSpace (hrefs (Find doc (mkSelector "link" "rel" "icon")))) "") /\
  (forall before s href,
     Find doc (mkSelector "link" "rel" "icon") = (before ++ [s])%list ->
     Attr s "href" = Some href ->
     findIconURLFromHTMLDocument body = Ok (TrimSpace href)).
Proof.
  intros Hd H1 H2 H3.
  assert (Hr : findIconURLFromHTMLDocument body
               = Ok (last (map TrimSpace
                             (hrefs (Find doc (mkSelector "link" "rel" "icon")))) "")).
  { unfold findIconURLFromHTMLDocument, NewDocumentFromReader. rewrite Hd. f_equal.
    unfold queries. cbn [scan_queries]. rewrite H1, H2, H3.
    cbn [Each_href fold_left String.eqb negb].
    rewrite Each_href_last.
    destruct (String.eqb _ ""); reflexivity. }
  split; [exact Hr|].
  intros before s href Hf Ha. rewrite Hr, Hf. f_equal.
  unfold hrefs. rewrite flat_map_app, map_app. cbn [flat_map]. rewrite Ha.
  cbn [app map]. apply last_last.
Qed.

(** ** More on the data-URL decoder *)

Lemma HasPrefix_split (s p : string) :
  HasPrefix s p = true -> s = p ++ slice_from s (len p).
Proof.
  unfold HasPrefix. revert s; induction p as [|c p IH]; intros s H.
  - simpl append. unfold slice_from, slice, len. simpl String.length.
    change (Z.of_nat 0) with 0. rewrite Z.sub_0_r, Nat2Z.id. simpl Z.to_nat.
    now rewrite substring_all.
  - destruct s as [|d s]; simpl in H; [discriminate|].
    destruct (ascii_dec c d) as [->|]; [|discriminate].
    simpl append. f_equal. rewrite (IH s H) at 1. f_equal.
    unfold slice_from, slice, len. simpl String.length.
    replace (Z.to_nat (Z.of_nat (S (String.length p)))) with (S (String.length p)) by lia.
    replace (Z.to_nat (Z.of_nat (S (String.length s)) - Z.of_nat (S (String.length p))))
      with (Z.to_nat (Z.of_nat (String.length s) - Z.of_nat (String.length p))) by lia.
    rewrite Nat2Z.id. reflexivity.
Qed.

Lemma slice_cons (d : byte) (s : string) (hi : Z) :
  0 <= hi -> slice (String d s) 0 (hi + 1) = String d (slice s 0 hi).
Proof.
  intros H. unfold slice. rewrite !Z.sub_0_r.
  replace (Z.to_nat (hi + 1)) with (S (Z.to_nat hi)) by lia. reflexivity.
Qed.

Lemma slice_from_cons (d : byte) (s : string) (lo : Z) :
  0 <= lo -> slice_from (String d s) (lo + 1) = slice_from s lo.
Proof.
  intros H. unfold slice_from, slice, len. simpl String.length.
  replace (Z.to_nat (lo + 1)) with (S (Z.to_nat lo)) by lia.
  replace (Z.to_nat (Z.of_nat (S (String.length s)) - (lo + 1)))
    with (Z.to_nat (Z.of_nat (String.length s) - lo)) by lia.
  reflexivity.
Qed.

(** A string splits at the first instance of a byte it contains. *)
Lemma Index1_split (s : string) (c : byte) :
  0 <= Index s (String c "") ->
  s = slice s 0 (Index s (String c ""))
      ++ String c (slice_from s (Index s (String c "") + 1)) /\
  Index (slice s 0 (Index s (String c ""))) (String c "") < 0.
Proof.
  induction s as [|d s IH]; [rewrite Index1_nil; lia|].
  rewrite Index1_cons. destruct (Ascii.eqb c d) eqn:E.
  - intros _. apply Ascii.eqb_eq in E. subst d. split.
    + change (slice (String c s) 0 0) with "". simpl append. f_equal.
      change 1 with (0 + 1). rewrite (slice_from_cons c s 0) by lia.
      unfold slice_from, slice. rewrite Z.sub_0_r. unfold len. rewrite Nat2Z.id.
      simpl Z.to_nat. now rewrite substring_all.
    + reflexivity.
  - destruct (Index s (String c "") <? 0) eqn:El; [lia|].
    apply Z.ltb_ge in El. intros _. destruct (IH El) as [IH1 IH2].
    rewrite slice_cons, slice_from_cons by lia. split.
    + simpl append. f_equal. exact IH1.
    + rewrite Index1_cons, E.
      replace (Index (slice s 0 (Index s (String c ""))) (String c "") <? 0) with true
        by (symmetry; apply Z.ltb_lt; exact IH2).
      lia.
Qed.

Lemma Index_prefix_absent (a b : string) (c : byte) :
  Index (a ++ b) (String c "") < 0 -> Index a (String c "") < 0.
Proof.
  intros H. destruct (Z.lt_ge_cases (Index a (String c "")) 0) as [Hl|Hg]; [exact Hl|].
  rewrite (Index_append_present a b c Hg) in H. lia.
Qed.

(** X8.  Every data URL that [parseImageDataURL] accepts has the form
    [data:<mt>,<data>], [data:<mt>;,<data>] or [data:<mt>;base64,<data>],
    where [<mt>] is the [MimeType] of the icon, starts with [image/] and
    contains neither comma nor semicolon.  A media type with a parameter, as
    in [data:image/png;charset=utf-8;base64,...], is therefore rejected. *)
Theorem accepted_data_URL_shape (value : string) (icon : Icon) :
  parseImageDataURL value = Ok icon ->
  (exists token data,
     value = "data:" ++ MimeType icon ++ token ++ "," ++ data /\
     (token = "" \/ token = ";" \/ token = ";base64")) /\
  HasPrefix (MimeType icon) "image/" = true /\
  Index (MimeType icon) "," < 0 /\
  Index (MimeType icon) ";" < 0.
Proof.
  intros H.
  apply parseImageDataURL_Ok in H
    as (mt & enc & data & Hp & Hc & Hparts & Hm & Hd & _ & Hi).
  rewrite Hi. cbn [MimeType]. clear Hi.
  apply HasPrefix_split in Hp. change (len "data:") with 5 in Hp.
  set (v := slice_from value 5) in *.
  destruct (Index1_split v ","%char Hc) as [Hv Hseg].
  set (seg := slice v 0 (Index v ",")) in *.
  set (rest := slice_from v (Index v "," + 1)) in *.
  assert (Hlen : Index v "," = len seg).
  { rewrite Hv at 1. apply (Index_first seg rest ","%char Hseg). }
  assert (He : enc = "base64" \/ enc = "").
  { unfold decodeData in Hd.
    destruct (String.eqb_spec enc "base64"); [auto|].
    destruct (String.eqb_spec enc ""); [auto | discriminate Hd]. }
  rewrite Hlen in Hparts. rewrite Hv in Hparts at 1.
  change (String ","%char rest) with ("," ++ rest) in Hparts.
  destruct (dataURLParts_segment seg rest Hseg) as [_ Hq]. rewrite Hq in Hparts.
  clear Hq. destruct (Index seg ";" >? 0) eqn:E.
  - apply Z.gtb_lt in E. injection Hparts as <- <- <-.
    destruct (Index1_split seg ";"%char ltac:(lia)) as [Hs1 Hs2].
    fold (slice_from seg (Index seg ";" + 1)) in He.
    split; [|split; [exact Hm|split; [|exact Hs2]]].
    + exists (String ";"%char (slice_from seg (Index seg ";" + 1))), rest. split.
      * rewrite Hp at 1. f_equal. rewrite Hv at 1. rewrite Hs1 at 1.
        rewrite !append_assoc. reflexivity.
      * destruct He as [-> | ->]; auto.
    + rewrite Hs1 in Hseg. apply Index_prefix_absent in Hseg. exact Hseg.
  - rewrite Z.gtb_ltb in E. apply Z.ltb_ge in E. injection Hparts as <- <- <-.
    assert (Hs : Index seg ";" < 0).
    { pose proof (Index_bounds seg ";").
      destruct (Z.eq_dec (Index seg ";") 0) as [H0|]; [|lia].
      destruct (Index1_zero _ _ H0) as [r Hr]. rewrite Hr in Hm. discriminate Hm. }
    split; [|split; [exact Hm|split; assumption]].
    exists "", rest. split; [|auto].
    rewrite Hp at 1. f_equal. rewrite Hv at 1. reflexivity.
Qed.

Lemma parseImageDataURL_base64 (mt data : string) :
  Index mt "," < 0 -> Index mt ";" < 0 -> HasPrefix mt "image/" = true ->
  parseImageDataURL ("data:" ++ mt ++ ";base64," ++ data) =
    match DecodeString false data with
    | Err err =>
        Err (Errorf "icon: invalid data %q (%v)"
                    [ArgString (mt ++ ";base64," ++ data); ArgError err])
    | Ok [] => Err (Errorf "icon: empty data URL %q"
                           [ArgString (mt ++ ";base64," ++ data)])
    | Ok blob => Ok {| Hash := HashFromBytes blob;
                       MimeType := mt;
                       Content := blob |}
    end.
Proof.
  intros Hc Hs Hm.
  assert (Hne : mt <> "") by (intros ->; discriminate Hm).
  assert (Hcs : Index (mt ++ ";" ++ "base64") "," < 0).
  { change (";" ++ "base64") with ";base64".
    rewrite (Index_absent_append mt ";base64" ","%char Hc). reflexivity. }
  replace (mt ++ ";base64," ++ data) with ((mt ++ ";" ++ "base64") ++ "," ++ data)
    by (rewrite append_assoc; reflexivity).
  pose proof (Index_first _ data ","%char Hcs) as Hi.
  change (String ","%char data) with ("," ++ data) in Hi.
  pose proof (dataURLParts_semicolon mt "base64" data Hne Hs Hcs) as Hp.
  rewrite <- Hi in Hp.
  rewrite (parseImageDataURL_parts _ _ _ _ ltac:(rewrite Hi; apply len_nonneg) Hp), Hm.
  cbn [negb]. unfold decodeData. cbn [String.eqb Ascii.eqb Bool.eqb].
  destruct (DecodeString false data) as [blob|e]; [|reflexivity].
  destruct blob; reflexivity.
Qed.

Lemma parseImageDataURL_plain (mt data : string) :
  Index mt "," < 0 -> Index mt ";" < 0 -> HasPrefix mt "image/" = true ->
  parseImageDataURL ("data:" ++ mt ++ "," ++ data) =
    match QueryUnescape data with
    | Err _ =>
        Err (Errorf "icon: unable to decode data URL %q" [ArgString (mt ++ "," ++ data)])
    | Ok decodedData =>
        match bytes_of_string decodedData with
        | [] => Err (Errorf "icon: empty data URL %q" [ArgString (mt ++ "," ++ data)])
        | blob => Ok {| Hash := HashFromBytes blob;
                        MimeType := mt;
                        Content := blob |}
        end
    end.
Proof.
  intros Hc Hs Hm.
  pose proof (Index_first mt data ","%char Hc) as Hi.
  change (String ","%char data) with ("," ++ data) in Hi.
  pose proof (dataURLParts_whole mt data Hc ltac:(lia)) as Hp.
  rewrite <- Hi in Hp.
  rewrite (parseImageDataURL_parts _ _ _ _ ltac:(rewrite Hi; apply len_nonneg) Hp), Hm.
  cbn [negb]. unfold decodeData. cbn [String.eqb].
  destruct (QueryUnescape data) as [d|e]; [|reflexivity].
  destruct (bytes_of_string d); reflexivity.
Qed.

(** The payload of an accepted [data:<mt>;base64,<b64>] is what
    [StdEncoding] decodes [<b64>] to. *)
Lemma accepted_base64_payload (mt b64 : string) (icon : Icon) :
  Index mt "," < 0 ->
  parseImageDataURL ("data:" ++ mt ++ ";base64," ++ b64) = Ok icon ->
  DecodeString false b64 = Ok (Content icon).
Proof.
  intros Hc Hok.
  replace (mt ++ ";base64," ++ b64) with ((mt ++ ";base64") ++ "," ++ b64) in Hok
    by (rewrite append_assoc; reflexivity).
  apply parseImageDataURL_Ok in Hok
    as (mediaType & encoding & data & _ & _ & Hp & Hm & Hd & _ & _).
  change 5 with (len "data:") in Hp, Hd. rewrite slice_from_append in Hp, Hd.
  assert (Hcs : Index (mt ++ ";base64") "," < 0).
  { rewrite (Index_absent_append mt ";base64" ","%char Hc). reflexivity. }
  change ("," ++ b64) with (String ","%char b64) in Hp.
  rewrite (Index_first _ b64 ","%char Hcs) in Hp.
  assert (He : encoding = "base64" \/ encoding = "").
  { unfold decodeData in Hd.
    destruct (String.eqb_spec encoding "base64"); [auto|].
    destruct (String.eqb_spec encoding ""); [auto | discriminate Hd]. }
  destruct (base64_segment_parts _ _ _ _ _ Hc Hp Hm He) as [-> ->].
  unfold decodeData in Hd. cbn [String.eqb Ascii.eqb Bool.eqb] in Hd.
  destruct (DecodeString false b64) as [blob|e]; [|discriminate Hd].
  injection Hd as ->. reflexivity.
Qed.

(** X9.  Every non-empty byte sequence can be carried by a data URL: the
    base64 text the standard encoder writes for it, put after
    [data:<mt>;base64,], is accepted and decodes to the same bytes. *)
Theorem base64_data_URL_carries_payload (mt : string) (bs : list byte) :
  Index mt "," < 0 -> Index mt ";" < 0 -> HasPrefix mt "image/" = true ->
  bs <> [] ->
  parseImageDataURL ("data:" ++ mt ++ ";base64," ++ EncodeToString bs)
  = Ok {| Hash := HashFromBytes bs; MimeType := mt; Content := bs |}.
Proof.
  intros Hc Hs Hm Hne. rewrite parseImageDataURL_base64 by assumption.
  unfold DecodeString. rewrite (decode_encode false (List.length bs) bs 0 (le_n _)).
  destruct bs; [congruence | reflexivity].
Qed.

Lemma QueryUnescape_no_percent (s : string) :
  Index s "%" < 0 -> QueryUnescape s = Ok (plus_to_space s).
Proof.
  induction s as [|c s IH]; [reflexivity|].
  rewrite Index1_cons. cbn [QueryUnescape plus_to_space].
  rewrite (Ascii.eqb_sym c "%"). destruct (Ascii.eqb "%" c); [lia|].
  destruct (Index s "%" <? 0) eqn:E; [|pose proof (Index_bounds s "%"); apply Z.ltb_ge in E; lia].
  apply Z.ltb_lt in E. intros _. rewrite (IH E). reflexivity.
Qed.

(** X10.  A payload without encoding token and without ['%'] is taken as it
    is, except that each ['+'] becomes a space; commas after the first one
    belong to the payload.  Such a data URL is accepted as soon as the payload
    is not empty. *)
Theorem plain_data_URL_payload (mt data : string) :
  Index mt "," < 0 -> Index mt ";" < 0 -> HasPrefix mt "image/" = true ->
  Index data "%" < 0 ->
  data <> "" ->
  parseImageDataURL ("data:" ++ mt ++ "," ++ data)
  = Ok {| Hash := HashFromBytes (bytes_of_string (plus_to_space data));
          MimeType := mt;
          Content := bytes_of_string (plus_to_space data) |}.
Proof.
  intros Hc Hs Hm Hp Hne. rewrite parseImageDataURL_plain by assumption.
  rewrite (QueryUnescape_no_percent data Hp).
  destruct data as [|c data]; [congruence | reflexivity].
Qed.

(** ** Line breaks and lengths in base64 text *)

Lemma is_newline_decodeMap (c : byte) : is_newline c = true -> decodeMap c = 255.
Proof.
  unfold is_newline. intros H. apply orb_true_iff in H as [H|H];
    apply Ascii.eqb_eq in H; subst c; reflexivity.
Qed.

Lemma strip_no_newline (s : string) : has_newline (strip_newlines s) = false.
Proof.
  induction s as [|c s IH]; [reflexivity|]. cbn [strip_newlines].
  destruct (is_newline c) eqn:E; [exact IH|]. cbn [has_newline]. now rewrite E, IH.
Qed.

Lemma strip_skip (s : string) : strip_newlines (skip_newlines s) = strip_newlines s.
Proof.
  induction s as [|c s IH]; [reflexivity|]. cbn [skip_newlines strip_newlines].
  destruct (is_newline c) eqn:E; [exact IH|]. cbn [strip_newlines]. now rewrite E.
Qed.

Lemma skip_strip (s : string) : skip_newlines (strip_newlines s) = strip_newlines s.
Proof. apply skip_no_newline, strip_no_newline. Qed.

(** What is left after the line breaks at the front have been skipped starts
    with the same byte as the text without line breaks. *)
Lemma skip_newlines_strip (s : string) :
  match skip_newlines s with
  | EmptyString => strip_newlines s = EmptyString
  | String c r => strip_newlines s = String c (strip_newlines r)
  end.
Proof.
  induction s as [|c s IH]; [reflexivity|]. cbn [skip_newlines strip_newlines].
  destruct (is_newline c) eqn:E; [exact IH|]. reflexivity.
Qed.

Lemma convert_quantum_value (strict : bool) (dbuf : list Z) (dlen : nat)
    (si si' : Z) (err err' : option error) :
  (err = None <-> err' = None) ->
  result_value (convert_quantum strict dbuf dlen si err)
  = result_value (convert_quantum strict dbuf dlen si' err').
Proof.
  intros H. unfold convert_quantum.
  assert (Hd : forall bs : list byte,
    result_value (match err with None => Ok bs | Some e => Err e end)
    = result_value (match err' with None => Ok bs | Some e => Err e end)).
  { intros bs. destruct err, err'; try reflexivity.
    - destruct H as [_ H]. discriminate (H eq_refl).
    - destruct H as [H _]. discriminate (H eq_refl). }
  destruct dlen as [|[|[|[|[|n]]]]]; try apply Hd.
  - destruct (strict && _); [reflexivity | apply Hd].
  - destruct (strict && _); [reflexivity | apply Hd].
Qed.

Lemma after_padding_strip (strict : bool) (rest : string) (si si' : Z)
    (dbuf : list Z) :
  result_value (after_padding strict rest si dbuf)
  = result_value (after_padding strict (strip_newlines rest) si' dbuf).
Proof.
  unfold after_padding. rewrite skip_strip. apply convert_quantum_value.
  pose proof (skip_newlines_strip rest) as H.
  destruct (skip_newlines rest) as [|c r]; rewrite H; split; auto; discriminate.
Qed.

Lemma decode_padding_strip (strict : bool) (rest : string) (si si' : Z)
    (dbuf : list Z) :
  result_value (decode_padding strict rest si dbuf)
  = result_value (decode_padding strict (strip_newlines rest) si' dbuf).
Proof.
  unfold decode_padding.
  destruct (List.length dbuf) as [|[|[|n]]]; try reflexivity.
  - rewrite skip_strip. pose proof (skip_newlines_strip rest) as H.
    destruct (skip_newlines rest) as [|c r]; rewrite H; [reflexivity|].
    destruct (negb (Ascii.eqb c padChar)); [reflexivity|].
    apply after_padding_strip.
  - apply after_padding_strip.
Qed.

(** The decoder does not see line breaks: with or without them it fails or
    succeeds alike, and decodes to the same bytes. *)
Lemma decode_from_strip (strict : bool) (src : string) :
  forall (si si' : Z) (dbuf : list Z),
    result_value (decode_from strict src si dbuf)
    = result_value (decode_from strict (strip_newlines src) si' dbuf).
Proof.
  induction src as [|c rest IH]; intros si si' dbuf.
  - cbn [strip_newlines decode_from]. destruct dbuf; reflexivity.
  - cbn [strip_newlines]. destruct (is_newline c) eqn:En.
    + rewrite decode_from_unfold, (is_newline_decodeMap c En), En.
      change (negb (255 =? 255)) with false. cbv iota. apply IH.
    + rewrite !decode_from_unfold, En.
      destruct (negb (decodeMap c =? 255)).
      * destruct (List.length (dbuf ++ [decodeMap c]) =? 4)%nat; [|apply IH].
        unfold convert_quantum. specialize (IH (si + 1) (si' + 1) []).
        destruct (decode_from strict rest (si + 1) []),
                 (decode_from strict (strip_newlines rest) (si' + 1) []);
          cbn [result_value] in IH |- *; congruence.
      * destruct (negb (Ascii.eqb c padChar)); [reflexivity|].
        apply decode_padding_strip.
Qed.

(** X11.  Carriage returns and line feeds in the base64 text of a data URL
    make no difference to the icon: the URL is accepted with them exactly
    when it is accepted without them, and the icon is the same. *)
Theorem base64_data_URL_ignores_line_breaks (mt b64 : string) :
  Index mt "," < 0 -> Index mt ";" < 0 -> HasPrefix mt "image/" = true ->
  result_value (parseImageDataURL ("data:" ++ mt ++ ";base64," ++ b64))
  = result_value
      (parseImageDataURL ("data:" ++ mt ++ ";base64," ++ strip_newlines b64)).
Proof.
  intros Hc Hs Hm. rewrite !parseImageDataURL_base64 by assumption.
  unfold DecodeString. pose proof (decode_from_strip false b64 0 0 []) as H.
  destruct (decode_from false b64 0 []) as [bs|e],
           (decode_from false (strip_newlines b64) 0 []) as [bs'|e'];
    cbn [result_value] in H; try discriminate H; try reflexivity.
  injection H as <-. destruct bs; reflexivity.
Qed.

Lemma after_padding_Ok (strict : bool) (rest : string) (si : Z) (dbuf : list Z)
    (bs : list byte) :
  has_newline rest = false ->
  after_padding strict rest si dbuf = Ok bs ->
  rest = EmptyString /\
  convert_quantum strict dbuf (List.length dbuf) (si + 0) None = Ok bs.
Proof.
  intros Hn. unfold after_padding.
  destruct (skip_no_newline rest Hn) as [-> ->].
  destruct rest as [|c r]; [auto|].
  unfold convert_quantum.
  destruct (List.length dbuf) as [|[|[|[|[|n]]]]]; try discriminate.
  - destruct (_ && _); discriminate.
  - destruct (_ && _); discriminate.
Qed.

Lemma convert_quantum_length (strict : bool) (dbuf : list Z) (dlen : nat) (si : Z)
    (bs : list byte) :
  (2 <= dlen <= 4)%nat ->
  convert_quantum strict dbuf dlen si None = Ok bs ->
  List.length bs = (dlen - 1)%nat.
Proof.
  intros Hd. unfold convert_quantum.
  destruct dlen as [|[|[|[|[|n]]]]]; try lia.
  - destruct (strict && _); [discriminate|]. intros H. injection H as <-. reflexivity.
  - destruct (strict && _); [discriminate|]. intros H. injection H as <-. reflexivity.
  - intros H. injection H as <-. reflexivity.
Qed.

(** Base64 text without line breaks that the decoder accepts is made of [k]
    groups of four bytes, and decodes to [3 * k] bytes less the one or two
    that the padding of the last group stands for. *)
Lemma decode_from_length (strict : bool) (n : nat) :
  forall (src : string) (si : Z) (bs : list byte),
    (String.length src <= n)%nat ->
    has_newline src = false ->
    decode_from strict src si [] = Ok bs ->
    exists k : Z,
      len src = 4 * k /\ 3 * k - 2 <= Z.of_nat (List.length bs) <= 3 * k.
Proof.
  induction n as [|n IH]; intros src si bs Hlen Hnl Hd.
  { destruct src; simpl in Hlen; [|lia]. simpl in Hd. injection Hd as <-.
    exists 0. split; [reflexivity | simpl; lia]. }
  destruct src as [|c1 src];
    [simpl in Hd; injection Hd as <-; exists 0; split; [reflexivity | simpl; lia]|].
  simpl has_newline in Hnl. apply orb_false_iff in Hnl as [Hn1 Hnl].
  destruct (decodeMap_range c1) as [E1|R1].
  { destruct (decode_step_other _ _ _ _ _ _ E1 Hn1 Hd) as [_ Hp]. discriminate Hp. }
  rewrite (decode_step_sextet _ _ _ _ _ R1) in Hd. cbn [List.length app Nat.eqb] in Hd.
  destruct src as [|c2 src]; [discriminate Hd|].
  simpl has_newline in Hnl. apply orb_false_iff in Hnl as [Hn2 Hnl].
  destruct (decodeMap_range c2) as [E2|R2].
  { destruct (decode_step_other _ _ _ _ _ _ E2 Hn2 Hd) as [_ Hp]. discriminate Hp. }
  rewrite (decode_step_sextet _ _ _ _ _ R2) in Hd. cbn [List.length app Nat.eqb] in Hd.
  destruct src as [|c3 src]; [discriminate Hd|].
  simpl has_newline in Hnl. apply orb_false_iff in Hnl as [Hn3 Hnl].
  destruct (decodeMap_range c3) as [E3|R3].
  { destruct (decode_step_other _ _ _ _ _ _ E3 Hn3 Hd) as [-> Hp].
    unfold decode_padding in Hp. cbn [List.length] in Hp.
    destruct (skip_no_newline src Hnl) as [Hs Hc]. rewrite Hs, Hc in Hp.
    destruct src as [|c4 rest]; [discriminate Hp|].
    simpl has_newline in Hnl. apply orb_false_iff in Hnl as [Hn4 Hnl].
    destruct (Ascii.eqb c4 padChar) eqn:E4; cbn [negb] in Hp; [|discriminate Hp].
    apply (after_padding_Ok _ _ _ _ _ Hnl) in Hp as [-> Hp].
    apply convert_quantum_length in Hp; [|simpl; lia].
    exists 1. rewrite Hp. split; [reflexivity | simpl; lia]. }
  rewrite (decode_step_sextet _ _ _ _ _ R3) in Hd. cbn [List.length app Nat.eqb] in Hd.
  destruct src as [|c4 rest]; [discriminate Hd|].
  simpl has_newline in Hnl. apply orb_false_iff in Hnl as [Hn4 Hnl].
  destruct (decodeMap_range c4) as [E4|R4].
  { destruct (decode_step_other _ _ _ _ _ _ E4 Hn4 Hd) as [-> Hp].
    unfold decode_padding in Hp. cbn [List.length] in Hp.
    apply (after_padding_Ok _ _ _ _ _ Hnl) in Hp as [-> Hp].
    apply convert_quantum_length in Hp; [|simpl; lia].
    exists 1. rewrite Hp. split; [reflexivity | simpl; lia]. }
  rewrite (decode_step_sextet _ _ _ _ _ R4) in Hd. cbn [List.length app Nat.eqb] in Hd.
  unfold convert_quantum in Hd.
  destruct (decode_from strict rest (si + 1 + 1 + 1 + 1) []) as [bs'|e] eqn:Er;
    [|discriminate Hd].
  injection Hd as <-.
  destruct (IH rest (si + 1 + 1 + 1 + 1) bs') as (k & Hk & Hb);
    [simpl in Hlen; lia | exact Hnl | exact Er |].
  exists (k + 1). unfold len in *. cbn [String.length app List.length].
  rewrite !Nat2Z.inj_succ. lia.
Qed.

(** X12.  In an accepted [data:<mt>;base64,<b64>] the base64 text, line
    breaks apart, is made of groups of four bytes (text without padding is
    rejected), and the payload has three bytes for each group, less one or two
    for the padding of the last. *)
Theorem base64_data_URL_length (mt b64 : string) (icon : Icon) :
  Index mt "," < 0 ->
  parseImageDataURL ("data:" ++ mt ++ ";base64," ++ b64) = Ok icon ->
  exists k : Z,
    0 < k /\
    len (strip_newlines b64) = 4 * k /\
    3 * k - 2 <= Z.of_nat (List.length (Content icon)) <= 3 * k.
Proof.
  intros Hc Hok.
  assert (Hne : Content icon <> []).
  { apply parseImageDataURL_Ok in Hok as (? & ? & ? & _ & _ & _ & _ & _ & H & _).
    exact H. }
  apply (accepted_base64_payload _ _ _ Hc) in Hok. unfold DecodeString in Hok.
  pose proof (decode_from_strip false b64 0 0 []) as Hs. rewrite Hok in Hs.
  destruct (decode_from false (strip_newlines b64) 0 []) as [bs|e] eqn:Ed;
    cbn [result_value] in Hs; [|discriminate Hs].
  injection Hs as <-.
  destruct (decode_from_length false _ _ 0 _ (le_n _) (strip_no_newline b64) Ed)
    as (k & Hk & Hb).
  exists k. split; [|split; assumption].
  destruct (Content icon); [congruence|]. cbn [List.length] in Hb. lia.
Qed.

End Finder.

(** ** Examples *)

Lemma icon_content_nonempty_witness :
  (parseImageDataURL sample_hash "data:image/png;base64,QUI=" = Ok icon_AB /\
   Content icon_AB <> []) /\
  (fst (downloadIcon sample_hash HasServerFailure_spec sample_network
          "https://example.org/b.png" "agent" false false [])
   = Ok icon_PNG /\
   fst (FindIcon sample_hash sample_TrimSpace sample_RootURL sample_Join
          sample_Absolute HasServerFailure_spec sample_network
          (sample_parse page_ab) "https://example.org" "" "agent" false false [])
   = Ok icon_PNG /\
   Content icon_PNG <> []) /\
  parseImageDataURL sample_hash "data:image/png;base64,"
  = Err (Errorf "icon: empty data URL %q" [ArgString "image/png;base64,"]) /\
  fst (downloadIcon sample_hash HasServerFailure_spec sample_network
         "https://example.org/empty.png" "agent" false false [])
  = Err (Errorf "icon: downloaded icon is empty, iconURL=%s"
                [ArgString "https://example.org/empty.png"]).
Proof.
  destruct (icon_content_nonempty sample_hash sample_TrimSpace sample_RootURL
              sample_Join sample_Absolute HasServerFailure_spec sample_network
              (sample_parse page_ab)) as (H1 & H2 & H3 & H4 & H5).
  split; [|split; [|split]].
  - split; [reflexivity|].
    apply (H1 "data:image/png;base64,QUI=" icon_AB). reflexivity.
  - split; [reflexivity|]. split; [reflexivity|].
    apply (H3 "https://example.org" "" "agent" false false [] icon_PNG
              [ newClient "https://example.org" "agent" false false;
                newClient "https://example.org/b.png" "agent" false false ]).
    reflexivity.
  - apply (H4 "image/png;base64," "image/png" "base64" "");
      [vm_compute; discriminate | reflexivity | reflexivity | reflexivity].
  - apply (H5 "https://example.org/empty.png" "agent" false false []
              (sample_response 200 "image/png" "")); reflexivity.
Defined.

Lemma scanner_priority_order_witness :
  sample_TrimSpace "/b.png" = "/b.png" /\
  icon_links page_ab = [link_a; link_b] /\
  icon_links page_ba = [link_b; link_a] /\
  findIconURLFromHTMLDocument sample_TrimSpace (sample_parse page_ab) sample_body
  = Ok "/b.png" /\
  findIconURLFromHTMLDocument sample_TrimSpace (sample_parse page_ba) sample_body
  = Ok "/b.png".
Proof.
  split; [reflexivity|]. split; [reflexivity|]. split; [reflexivity|]. split.
  - apply (scanner_priority_order sample_TrimSpace (sample_parse page_ab)
             sample_body page_ab eq_refl); [reflexivity | left; reflexivity].
  - apply (scanner_priority_order sample_TrimSpace (sample_parse page_ba)
             sample_body page_ba eq_refl); [reflexivity | right; reflexivity].
Defined.

Lemma malformed_data_URL_rejected_witness :
  parseImageDataURL sample_hash "data:image/png"
  = Err (Errorf "icon: invalid data URL (no comma) %q" [ArgString "image/png"]) /\
  parseImageDataURL sample_hash "data:text/html,abc"
  = Err (Errorf "icon: invalid media type %q" [ArgString "text/html"]) /\
  parseImageDataURL sample_hash "data:image/png;gzip,AAAA"
  = Err (Errorf "icon: unsupported data URL encoding %q"
                [ArgString "image/png;gzip,AAAA"]) /\
  (exists e, parseImageDataURL sample_hash "data:text/html;gzip,AAAA" = Err e /\
             malformed_data_URL e = true).
Proof.
  destruct (malformed_data_URL_rejected sample_hash) as (H1 & H2 & H3 & H4).
  split; [|split; [|split]].
  - destruct (H1 "image/png") as (e & He & -> & _); [vm_compute; reflexivity|].
    exact He.
  - destruct (H2 "text/html,abc" "text/html" "" "abc") as (e & He & -> & _);
      [vm_compute; discriminate | reflexivity | reflexivity |].
    exact He.
  - destruct (H3 "image/png;gzip,AAAA" "image/png" "gzip" "AAAA") as (e & He & Hu & _);
      [vm_compute; discriminate | reflexivity | discriminate | discriminate |].
    rewrite <- (Hu eq_refl). exact He.
  - apply (H4 "text/html" "gzip" "AAAA");
      [vm_compute; reflexivity | vm_compute; reflexivity
      | discriminate | discriminate].
Defined.

Lemma data_URL_payload_decoding_witness :
  parseImageDataURL sample_hash "data:image/png,QUI%3D"
  = Ok (mkIcon "QUI=" "image/png" (bytes_of_string "QUI=")) /\
  parseImageDataURL sample_hash "data:image/png;base64,QUI=" = Ok icon_AB /\
  parseImageDataURL sample_hash "data:image/png,%zz"
  = Err (Errorf "icon: unable to decode data URL %q" [ArgString "image/png,%zz"]) /\
  parseImageDataURL sample_hash "data:image/png;base64,QUI"
  = Err (Errorf "icon: invalid data %q (%v)"
                [ArgString "image/png;base64,QUI"; ArgError (CorruptInputError 0)]).
Proof.
  destruct (data_URL_payload_decoding sample_hash) as (H1 & H2 & H3).
  split; [|split; [|split]].
  - exact (H2 "image/png" "QUI%3D" eq_refl eq_refl eq_refl).
  - exact (H3 "image/png" "QUI=" eq_refl eq_refl eq_refl).
  - exact (H2 "image/png" "%zz" eq_refl eq_refl eq_refl).
  - destruct (H1 "image/png;base64,QUI" "image/png" "base64" "QUI") as [_ Hb];
      [vm_compute; discriminate | reflexivity | reflexivity |].
    exact (Hb eq_refl).
Defined.

Lemma data_URL_header_split_witness :
  Index "image/png;base64" "," < 0 /\
  dataURLParts "image/png;base64,QUI=" (Index "image/png;base64,QUI=" ",")
  = ("image/png", "base64", "QUI=").
Proof.
  assert (H : Index "image/png;base64" "," < 0) by (vm_compute; reflexivity).
  split; [exact H|].
  destruct (data_URL_header_split "image/png;base64" "QUI=" H) as (_ & Hs & _).
  apply (Hs "image/png" "base64");
    [reflexivity | discriminate | vm_compute; reflexivity].
Defined.

(** C5, as stated, fails on a segment that starts with its semicolon: the
    media type is not the empty text before the semicolon but the whole
    segment, and the encoding token is empty. *)
Lemma data_URL_header_split_counterexample :
  Index ";base64" ";" = 0 /\
  Index ";base64,QUI=" "," = 7 /\
  dataURLParts ";base64,QUI=" 7 = (";base64", "", "QUI=") /\
  dataURLParts ";base64,QUI=" 7 <> ("", "base64", "QUI=") /\
  parseImageDataURL sample_hash "data:;base64,QUI="
  = Err (Errorf "icon: invalid media type %q" [ArgString ";base64"]).
Proof.
  split; [reflexivity|]. split; [reflexivity|]. split; [reflexivity|].
  split; [vm_compute; discriminate | reflexivity].
Qed.

Lemma base64_data_URL_roundtrip_witness :
  Index "image/png" "," < 0 /\
  parseImageDataURL sample_hash "data:image/png;base64,aGVsbG8="
  = Ok (mkIcon "hello" "image/png" (bytes_of_string "hello")) /\
  canonical_base64 "aGVsbG8=" = true /\
  EncodeToString (bytes_of_string "hello") = "aGVsbG8=".
Proof.
  split; [vm_compute; reflexivity|]. split; [reflexivity|]. split; [reflexivity|].
  apply (base64_data_URL_roundtrip sample_hash "image/png" "aGVsbG8="
           (mkIcon "hello" "image/png" (bytes_of_string "hello")));
    [vm_compute; reflexivity | reflexivity | reflexivity].
Defined.

(** C9, as stated, fails on an accepted input whose last symbol has non-zero
    padding bits, and on one that contains a line break. *)
Lemma base64_data_URL_roundtrip_counterexample :
  (parseImageDataURL sample_hash "data:image/png;base64,QUJ=" = Ok icon_AB /\
   EncodeToString (Content icon_AB) = "QUI=" /\
   EncodeToString (Content icon_AB) <> "QUJ=") /\
  (parseImageDataURL sample_hash
     ("data:image/png;base64,QU" ++ String "010"%char "I=") = Ok icon_AB /\
   EncodeToString (Content icon_AB) <> "QU" ++ String "010"%char "I=").
Proof.
  split; (split; [reflexivity|]); [split; [reflexivity|]|]; vm_compute; discriminate.
Qed.

Lemma blank_href_overwrites_witness :
  Find page_blank (mkSelector "link" "rel" "shortcut icon")
  = [ link "shortcut icon" "/x.png"; link "shortcut icon" "  ";
      element "link" [mkAttribute "rel" "shortcut icon"] [] ] /\
  sample_TrimSpace "  " = "" /\
  Each_href sample_TrimSpace ""
    (Find page_blank (mkSelector "link" "rel" "shortcut icon")) = "" /\
  scan_queries sample_TrimSpace page_blank queries "" = "/a.png".
Proof.
  split; [reflexivity|]. split; [reflexivity|].
  destruct (blank_href_overwrites sample_TrimSpace) as (_ & _ & H).
  destruct (H page_blank (mkSelector "link" "rel" "shortcut icon")
              [ mkSelector "link" "rel" "Shortcut Icon";
                mkSelector "link" "rel" "icon shortcut";
                mkSelector "link" "rel" "icon" ]
              [link "shortcut icon" "/x.png"]
              (link "shortcut icon" "  ")
              [element "link" [mkAttribute "rel" "shortcut icon"] []]
              "  " eq_refl eq_refl eq_refl
              ltac:(repeat constructor)) as [H1 H2].
  split; [exact H1|].
  change queries with
    [ mkSelector "link" "rel" "shortcut icon";
      mkSelector "link" "rel" "Shortcut Icon";
      mkSelector "link" "rel" "icon shortcut";
      mkSelector "link" "rel" "icon" ].
  rewrite H2. reflexivity.
Defined.

Lemma generateIconURL_cases_witness :
  sample_TrimSpace "  " = "" /\
  generateIconURL sample_TrimSpace sample_RootURL sample_Join sample_Absolute
    "https://example.org" "  " = Ok "https://example.org/favicon.ico" /\
  sample_TrimSpace " /b.png " <> "" /\
  generateIconURL sample_TrimSpace sample_RootURL sample_Join sample_Absolute
    "https://example.org" " /b.png " = Ok "https://example.org/b.png" /\
  icon_links page_plain = [] /\
  generateIconURL sample_TrimSpace sample_RootURL sample_Join sample_Absolute
    "https://example.org" (scan_queries sample_TrimSpace page_plain queries "")
  = Ok "https://example.org/favicon.ico".
Proof.
  destruct (generateIconURL_cases sample_TrimSpace sample_RootURL sample_Join
              sample_Absolute "https://example.org" "  ") as (H1 & _ & H3).
  destruct (generateIconURL_cases sample_TrimSpace sample_RootURL sample_Join
              sample_Absolute "https://example.org" " /b.png ") as (_ & H2 & _).
  split; [reflexivity|]. split; [exact (H1 eq_refl)|].
  split; [discriminate|]. split; [apply H2; discriminate|].
  split; [reflexivity|]. exact (proj2 (H3 eq_refl page_plain eq_refl)).
Defined.

Lemma downloadIcon_outcome_witness :
  HasServerFailure_spec (sample_response 503 "text/plain" "unavailable") = true /\
  downloadIcon sample_hash HasServerFailure_spec sample_network
    "https://example.org/favicon.ico" "agent" false false []
  = (Err (Errorf "icon: unable to download icon: status=%d" [ArgInt 503]),
     [newClient "https://example.org/favicon.ico" "agent" false false]) /\
  fst (downloadIcon sample_hash HasServerFailure_spec sample_network
         "https://example.org/empty.png" "agent" false false [])
  = Err (Errorf "icon: downloaded icon is empty, iconURL=%s"
                [ArgString "https://example.org/empty.png"]) /\
  fst (downloadIcon sample_hash HasServerFailure_spec sample_network
         "https://example.org/b.png" "agent" false false [])
  = Ok icon_PNG /\
  is_Err (fst (downloadIcon sample_hash HasServerFailure_spec sample_network
                 "https://example.net/x.png" "agent" false false [])).
Proof.
  split; [reflexivity|]. split; [|split; [|split]].
  - destruct (downloadIcon_outcome sample_hash HasServerFailure_spec sample_network
                "https://example.org/favicon.ico" "agent" false false [])
      as (Hh & _ & Hs & _).
    rewrite (surjective_pairing (downloadIcon _ _ _ _ _ _ _ _)).
    rewrite Hh, (Hs (sample_response 503 "text/plain" "unavailable") eq_refl eq_refl).
    reflexivity.
  - destruct (downloadIcon_outcome sample_hash HasServerFailure_spec sample_network
                "https://example.org/empty.png" "agent" false false [])
      as (_ & _ & _ & He & _).
    exact (He (sample_response 200 "image/png" "") eq_refl eq_refl eq_refl).
  - destruct (downloadIcon_outcome sample_hash HasServerFailure_spec sample_network
                "https://example.org/b.png" "agent" false false [])
      as (_ & _ & _ & _ & Ho).
    apply (Ho (sample_response 200 "image/png" "PNG") (bytes_of_string "PNG"));
      [reflexivity | reflexivity | reflexivity | discriminate].
  - destruct (downloadIcon_outcome sample_hash HasServerFailure_spec sample_network
                "https://example.net/x.png" "agent" false false [])
      as (_ & Hi & _).
    apply Hi. left. exists (ExternalError "no such host"). reflexivity.
Defined.

Lemma FindIcon_data_URL_witness :
  FindIcon sample_hash sample_TrimSpace sample_RootURL sample_Join sample_Absolute
    HasServerFailure_spec sample_network (sample_parse page_data)
    "https://example.org" "data:image/png;base64,QUI=" "agent" false false []
  = (Ok icon_AB, []) /\
  FindIcon sample_hash sample_TrimSpace sample_RootURL sample_Join sample_Absolute
    HasServerFailure_spec sample_network (sample_parse page_data)
    "https://example.org" "" "agent" false false []
  = (Ok icon_AB, [newClient "https://example.org" "agent" false false]).
Proof.
  split.
  - destruct (FindIcon_data_URL sample_hash sample_TrimSpace sample_RootURL
                sample_Join sample_Absolute HasServerFailure_spec sample_network
                (sample_parse page_data) "https://example.org"
                "data:image/png;base64,QUI=" "agent" false false []) as [H _].
    rewrite H; [reflexivity | discriminate | reflexivity].
  - destruct (FindIcon_data_URL sample_hash sample_TrimSpace sample_RootURL
                sample_Join sample_Absolute HasServerFailure_spec sample_network
                (sample_parse page_data) "https://example.org"
                "" "agent" false false []) as [_ H].
    destruct (H eq_refl "data:image/png;base64,QUI="
                [newClient "https://example.org" "agent" false false]
                eq_refl eq_refl) as [Hf _].
    rewrite Hf. reflexivity.
Defined.

(** ** Examples for the orchestrator, the scanner and the decoder *)


Lemma FindIcon_failures_witness :
  FindIcon sample_hash sample_TrimSpace sample_RootURL sample_Join sample_Absolute
    HasServerFailure_spec sample_network (sample_parse page_ab)
    "https://example.net" "" "agent" false false []
  = (Err (Errorf "icon: unable to download website index page: %v"
                 [ArgError (ExternalError "no such host")]),
     [newClient "https://example.net" "agent" false false]) /\
  FindIcon sample_hash sample_TrimSpace sample_RootURL sample_Join sample_Absolute
    HasServerFailure_spec sample_network (sample_parse page_ab)
    "https://example.org/favicon.ico" "" "agent" false false []
  = (Err (Errorf "icon: unable to download website index page: status=%d"
                 [ArgInt 503]),
     [newClient "https://example.org/favicon.ico" "agent" false false]) /\
  FindIcon sample_hash sample_TrimSpace sample_RootURL sample_Join sample_Absolute
    HasServerFailure_spec sample_network failing_parse
    "https://example.org" "" "agent" false false []
  = (Err (Errorf "icon: unable to read document: %v"
                 [ArgError (ExternalError "unexpected EOF")]),
     [newClient "https://example.org" "agent" false false]) /\
  FindIcon sample_hash sample_TrimSpace sample_RootURL sample_Join failing_Absolute
    HasServerFailure_spec sample_network (sample_parse page_ab)
    "https://example.org" "" "agent" false false []
  = (Err (Errorf "icon: unable to convert icon URL to absolute URL: %w"
                 [ArgError (ExternalError "invalid URL")]),
     [newClient "https://example.org" "agent" false false]) /\
  FindIcon sample_hash sample_TrimSpace sample_RootURL sample_Join failing_Absolute
    HasServerFailure_spec sample_network (sample_parse page_ab)
    "https://example.org" "::" "agent" false false []
  = (Err (Errorf "icon: unable to convert icon URL to absolute URL: %w"
                 [ArgError (ExternalError "invalid URL")]), []).
Proof.
  split; [|split; [|split; [|split]]].
  - destruct (FindIcon_failures sample_hash sample_TrimSpace sample_RootURL
                sample_Join sample_Absolute HasServerFailure_spec sample_network
                (sample_parse page_ab) "https://example.net" "agent" false false [])
      as (H & _).
    exact (H (ExternalError "no such host") eq_refl).
  - destruct (FindIcon_failures sample_hash sample_TrimSpace sample_RootURL
                sample_Join sample_Absolute HasServerFailure_spec sample_network
                (sample_parse page_ab) "https://example.org/favicon.ico" "agent"
                false false []) as (_ & H & _).
    exact (H (sample_response 503 "text/plain" "unavailable") eq_refl eq_refl).
  - destruct (FindIcon_failures sample_hash sample_TrimSpace sample_RootURL
                sample_Join sample_Absolute HasServerFailure_spec sample_network
                failing_parse "https://example.org" "agent" false false [])
      as (_ & _ & H & _).
    exact (H (sample_response 200 "text/html" "<html>")
             (ExternalError "unexpected EOF") eq_refl eq_refl eq_refl).
  - destruct (FindIcon_failures sample_hash sample_TrimSpace sample_RootURL
                sample_Join failing_Absolute HasServerFailure_spec sample_network
                (sample_parse page_ab) "https://example.org" "agent" false false [])
      as (_ & _ & _ & H & _).
    exact (H (sample_response 200 "text/html" "<html>") page_ab _
             eq_refl eq_refl eq_refl eq_refl eq_refl).
  - destruct (FindIcon_failures sample_hash sample_TrimSpace sample_RootURL
                sample_Join failing_Absolute HasServerFailure_spec sample_network
                (sample_parse page_ab) "https://example.org" "agent" false false [])
      as (_ & _ & _ & _ & H).
    apply (H "::"); [discriminate | reflexivity | reflexivity].
Defined.

Lemma FindIcon_supplied_URL_witness :
  FindIcon sample_hash sample_TrimSpace sample_RootURL sample_Join sample_Absolute
    HasServerFailure_spec sample_network (sample_parse page_ab)
    "https://example.org" "  " "agent" false false []
  = (Err (Errorf "icon: unable to download icon: status=%d" [ArgInt 503]),
     [newClient "https://example.org/favicon.ico" "agent" false false]) /\
  FindIcon sample_hash sample_TrimSpace sample_RootURL sample_Join sample_Absolute
    HasServerFailure_spec sample_network (sample_parse page_ab)
    "https://example.org" " /b.png" "agent" false false []
  = (Ok icon_PNG, [newClient "https://example.org/b.png" "agent" false false]) /\
  FindIcon sample_hash sample_TrimSpace sample_RootURL sample_Join sample_Absolute
    HasServerFailure_spec sample_network (sample_parse page_ab)
    "https://example.org/" " data:image/png;base64,QUI=" "agent" false false []
  = (Err (Errorf "icon: unable to download iconURL: %v"
                 [ArgError (ExternalError "no such host")]),
     [newClient "https://example.org/data:image/png;base64,QUI=" "agent" false false]).
Proof.
  split; [|split].
  - destruct (FindIcon_supplied_URL sample_hash sample_TrimSpace sample_RootURL
                sample_Join sample_Absolute HasServerFailure_spec sample_network
                (sample_parse page_ab) "https://example.org" "  " "agent" false false [])
      as [H _]; [discriminate | reflexivity |].
    rewrite (H eq_refl "https://example.org/favicon.ico" eq_refl). reflexivity.
  - destruct (FindIcon_supplied_URL sample_hash sample_TrimSpace sample_RootURL
                sample_Join sample_Absolute HasServerFailure_spec sample_network
                (sample_parse page_ab) "https://example.org" " /b.png" "agent"
                false false [])
      as [_ H]; [discriminate | reflexivity |].
    rewrite (H ltac:(discriminate) "https://example.org/b.png" eq_refl). reflexivity.
  - destruct (FindIcon_supplied_URL sample_hash sample_TrimSpace sample_RootURL
                sample_Join sample_Absolute HasServerFailure_spec sample_network
                (sample_parse page_ab) "https://example.org/"
                " data:image/png;base64,QUI=" "agent" false false [])
      as [_ H]; [discriminate | reflexivity |].
    rewrite (H ltac:(discriminate)
               "https://example.org/data:image/png;base64,QUI=" eq_refl).
    reflexivity.
Defined.

Lemma icon_hash_of_content_witness :
  parseImageDataURL sample_hash "data:image/png;base64,QUI=" = Ok icon_AB /\
  Hash icon_AB = sample_hash (Content icon_AB) /\
  HasPrefix (MimeType icon_AB) "image/" = true /\
  FindIcon sample_hash sample_TrimSpace sample_RootURL sample_Join sample_Absolute
    HasServerFailure_spec sample_network (sample_parse page_ab)
    "https://example.org" "" "agent" false false []
  = (Ok icon_PNG, [ newClient "https://example.org" "agent" false false;
                    newClient "https://example.org/b.png" "agent" false false ]) /\
  Hash icon_PNG = sample_hash (Content icon_PNG).
Proof.
  destruct (icon_hash_of_content sample_hash sample_TrimSpace sample_RootURL
              sample_Join sample_Absolute HasServerFailure_spec sample_network
              (sample_parse page_ab)) as (H1 & _ & H3).
  split; [reflexivity|].
  destruct (H1 "data:image/png;base64,QUI=" icon_AB eq_refl) as [Ha Hb].
  split; [exact Ha|]. split; [exact Hb|]. split; [reflexivity|].
  exact (H3 "https://example.org" "" "agent" false false [] icon_PNG _ eq_refl).
Defined.

Lemma scanner_outcome_witness :
  findIconURLFromHTMLDocument sample_TrimSpace failing_parse sample_body
  = Err (Errorf "icon: unable to read document: %v"
                [ArgError (ExternalError "unexpected EOF")]) /\
  exists iconURL,
    findIconURLFromHTMLDocument sample_TrimSpace (sample_parse page_ab) sample_body
    = Ok iconURL /\
    (iconURL = "" \/
     (iconURL <> "" /\
      exists s href,
        In s (icon_links page_ab) /\ Attr s "href" = Some href /\
        iconURL = sample_TrimSpace href)).
Proof.
  split.
  - destruct (scanner_outcome sample_TrimSpace failing_parse sample_body) as [H _].
    exact (H (ExternalError "unexpected EOF") eq_refl).
  - destruct (scanner_outcome sample_TrimSpace (sample_parse page_ab) sample_body)
      as [_ H].
    exact (H page_ab eq_refl).
Defined.

Lemma scanner_depends_on_icon_links_witness :
  parse_two empty_body = Ok page_flat /\
  parse_two sample_body = Ok page_ab /\
  icon_links page_flat = icon_links page_ab /\
  findIconURLFromHTMLDocument sample_TrimSpace parse_two empty_body
  = findIconURLFromHTMLDocument sample_TrimSpace parse_two sample_body.
Proof.
  split; [reflexivity|]. split; [reflexivity|]. split; [reflexivity|].
  apply (scanner_depends_on_icon_links sample_TrimSpace parse_two empty_body
           sample_body page_flat page_ab); reflexivity.
Defined.

Lemma scanner_last_icon_witness :
  Find page_icons (mkSelector "link" "rel" "shortcut icon") = [] /\
  Find page_icons (mkSelector "link" "rel" "icon")
  = [link "icon" "/1.png"; link "icon" "/2.png"; link "icon" " /3.png "] /\
  findIconURLFromHTMLDocument sample_TrimSpace (sample_parse page_icons) sample_body
  = Ok "/3.png".
Proof.
  split; [reflexivity|]. split; [reflexivity|].
  destruct (scanner_last_icon sample_TrimSpace (sample_parse page_icons) sample_body
              page_icons eq_refl eq_refl eq_refl eq_refl) as [_ H].
  exact (H [link "icon" "/1.png"; link "icon" "/2.png"] (link "icon" " /3.png ")
           " /3.png " eq_refl eq_refl).
Defined.

Lemma accepted_data_URL_shape_witness :
  parseImageDataURL sample_hash "data:image/png;base64,QUI=" = Ok icon_AB /\
  (exists token data,
     "data:image/png;base64,QUI=" = "data:" ++ MimeType icon_AB ++ token ++ "," ++ data /\
     (token = "" \/ token = ";" \/ token = ";base64")) /\
  Index (MimeType icon_AB) ";" < 0 /\
  is_Err (parseImageDataURL sample_hash "data:image/png;charset=utf-8;base64,QUI=").
Proof.
  split; [reflexivity|].
  destruct (accepted_data_URL_shape sample_hash "data:image/png;base64,QUI=" icon_AB
              eq_refl) as (H1 & _ & _ & H4).
  split; [exact H1|]. split; [exact H4|]. exact I.
Defined.

Lemma base64_data_URL_carries_payload_witness :
  bytes_of_string "hello" <> [] /\
  EncodeToString (bytes_of_string "hello") = "aGVsbG8=" /\
  parseImageDataURL sample_hash "data:image/png;base64,aGVsbG8="
  = Ok {| Hash := sample_hash (bytes_of_string "hello");
          MimeType := "image/png";
          Content := bytes_of_string "hello" |}.
Proof.
  split; [discriminate|]. split; [reflexivity|].
  apply (base64_data_URL_carries_payload sample_hash "image/png"
           (bytes_of_string "hello")); [reflexivity | reflexivity | reflexivity |].
  discriminate.
Defined.

Lemma plain_data_URL_payload_witness :
  Index "a+b,c" "%" < 0 /\
  parseImageDataURL sample_hash "data:image/svg+xml,a+b,c"
  = Ok {| Hash := sample_hash (bytes_of_string "a b,c");
          MimeType := "image/svg+xml";
          Content := bytes_of_string "a b,c" |}.
Proof.
  split; [reflexivity|].
  apply (plain_data_URL_payload sample_hash "image/svg+xml" "a+b,c");
    [reflexivity | reflexivity | reflexivity | reflexivity | discriminate].
Defined.

Lemma base64_data_URL_ignores_line_breaks_witness :
  strip_newlines ("QU" ++ String "010"%char "I=") = "QUI=" /\
  result_value (parseImageDataURL sample_hash
                  ("data:image/png;base64," ++ "QU" ++ String "010"%char "I="))
  = Some icon_AB /\
  result_value (parseImageDataURL sample_hash "data:image/png;base64,QUI=")
  = Some icon_AB.
Proof.
  split; [reflexivity|].
  pose proof (base64_data_URL_ignores_line_breaks sample_hash "image/png"
                ("QU" ++ String "010"%char "I=") eq_refl eq_refl eq_refl) as H.
  split; [exact (eq_trans H eq_refl) | reflexivity].
Defined.

Lemma base64_data_URL_length_witness :
  Index "image/png" "," < 0 /\
  parseImageDataURL sample_hash "data:image/png;base64,QUI=" = Ok icon_AB /\
  exists k : Z,
    0 < k /\
    len (strip_newlines "QUI=") = 4 * k /\
    3 * k - 2 <= Z.of_nat (List.length (Content icon_AB)) <= 3 * k.
Proof.
  split; [reflexivity|]. split; [reflexivity|].
  exact (base64_data_URL_length sample_hash "image/png" "QUI=" icon_AB
           eq_refl eq_refl).
Defined.
